(** * logrus-stackdriver-formatter: a shallow embedding of formatter.go

    The development follows src/formatter.go.  Go strings are byte
    strings ([string], one [ascii] per byte); [logrus.Fields] is a
    [gmap string Value]; Go maps are reference values, so field maps live
    in a store ([heap]) and the code runs in a small state monad over it.
    The three inputs of [ToEntry] that are not arguments in the Go code
    (the flag [skipTimestamp], the wall clock, the call stack seen by
    [stack.Caller]) are gathered in a record [World]. *)

From Stdlib Require Import ZArith Ascii String Decimal DecimalString DecimalZ DecimalPos.
From stdpp Require Import gmap strings list fin_maps sorting.

Local Open Scope Z_scope.

(** ** Byte strings: the functions of package [strings] that the code uses *)

Module Strings.

(** [HasPrefix s p]: [s] begins with [p]. *)
Fixpoint HasPrefix (s p : string) {struct p} : bool :=
  match p, s with
  | EmptyString, _ => true
  | String _ _, EmptyString => false
  | String a p', String b s' => if Ascii.eqb a b then HasPrefix s' p' else false
  end.

(** [skipn n s]: [s[n:]] (the empty string when [n] exceeds the length). *)
Fixpoint skipn (n : nat) (s : string) : string :=
  match n, s with
  | O, _ => s
  | S _, EmptyString => EmptyString
  | S n', String _ s' => skipn n' s'
  end.

(** [Cut s sep]: the text before and after the first occurrence of the
    non-empty separator [sep], or [None] when [sep] does not occur. *)
Fixpoint Cut (s sep : string) : option (string * string) :=
  if HasPrefix s sep then Some (EmptyString, skipn (String.length sep) s)
  else match s with
       | EmptyString => None
       | String c s' =>
           match Cut s' sep with
           | Some (before, after) => Some (String c before, after)
           | None => None
           end
       end.

(** [strings.SplitN(s, sep, 2)] for a non-empty [sep]: at most two
    pieces, split at the first occurrence of [sep]. *)
Definition SplitN2 (s sep : string) : list string :=
  match Cut s sep with
  | Some (before, after) => [before; after]
  | None => [s]
  end.

(** [sep] occurs somewhere in [s]. *)
Definition occurs (sep s : string) : Prop :=
  ∃ before after, s = before +:+ sep +:+ after.

End Strings.

(** ** [url.QueryEscape] (package net/url, mode [encodeQueryComponent]) *)

Module URL.

Definition is_alnum (c : ascii) : bool :=
  let n := nat_of_ascii c in
  ((97 <=? n) && (n <=? 122) || (65 <=? n) && (n <=? 90)
   || (48 <=? n) && (n <=? 57))%nat.

(** [shouldEscape(c, encodeQueryComponent)]: everything except the
    unreserved characters is escaped. *)
Definition shouldEscape (c : ascii) : bool :=
  if is_alnum c then false
  else if (Ascii.eqb c "-" || Ascii.eqb c "_" || Ascii.eqb c "." || Ascii.eqb c "~")%char
       then false
       else true.

Definition upperhex (n : nat) : ascii :=
  nth n (list_ascii_of_string "0123456789ABCDEF") "0"%char.

Fixpoint QueryEscape (s : string) : string :=
  match s with
  | EmptyString => EmptyString
  | String c s' =>
      if shouldEscape c then
        if Ascii.eqb c " " then String "+" (QueryEscape s')
        else String "%" (String (upperhex (nat_of_ascii c / 16))
                           (String (upperhex (nat_of_ascii c mod 16)) (QueryEscape s')))
      else String c (QueryEscape s')
  end.

End URL.

(** ** [strconv.ParseInt(s, 10, 64)] and decimal printing *)

Module Strconv.

Definition maxInt64 : Z := 2 ^ 63 - 1.
Definition minInt64 : Z := - 2 ^ 63.

(** [strconv.AppendInt(_, n, 10)]: the decimal text of [n]. *)
Definition FormatInt (n : Z) : string :=
  NilZero.string_of_int (Z.to_int n).

(** The digits of an unsigned decimal literal; [None] when the text is
    empty or holds a byte that is no digit. *)
Definition digits (s : string) : option Z :=
  match NilZero.uint_of_string s with
  | Some d => Some (Z.of_uint d)
  | None => None
  end.

(** [ParseInt s 10 64] returns the value and whether an error was
    reported.  A syntax error gives 0; a value out of range gives the
    nearest bound, also with an error. *)
Definition ParseInt (s : string) : Z * bool :=
  match s with
  | EmptyString => (0, true)
  | String c s' =>
      let neg := Ascii.eqb c "-" in
      let body := if (Ascii.eqb c "+" || Ascii.eqb c "-")%char then s' else s in
      match digits body with
      | None => (0, true)
      | Some un =>
          if neg then
            if 2 ^ 63 <? un then (minInt64, true) else (- un, false)
          else
            if 2 ^ 63 <=? un then (maxInt64, true) else (un, false)
      end
  end.

End Strconv.

(** ** JSON documents

    [json.Marshal] is modelled up to the tree of the document it writes:
    an object lists its members in the order of the output (struct fields
    in declaration order, map keys sorted). *)

#[local] Set Warnings "-register-all".
Inductive json : Type :=
| JNull
| JBool (b : bool)
| JNumber (n : Z)
| JString (s : string)
| JArray (items : list json)
| JObject (members : list (string * json)).

(** The member of an object under a key, if any. *)
Fixpoint assoc (k : string) (ms : list (string * json)) : option json :=
  match ms with
  | [] => None
  | (k', v) :: rest => if String.eqb k' k then Some v else assoc k rest
  end.

Definition member (k : string) (j : json) : option json :=
  match j with
  | JObject ms => assoc k ms
  | _ => None
  end.

Definition has_member (k : string) (j : json) : bool :=
  match member k j with Some _ => true | None => false end.

(** ** The data model of formatter.go *)

Definition severity := string.

Definition severityDebug : severity := "DEBUG".
Definition severityInfo : severity := "INFO".
Definition severityWarning : severity := "WARNING".
Definition severityError : severity := "ERROR".
Definition severityCritical : severity := "CRITICAL".
Definition severityAlert : severity := "ALERT".

(** [logrus.Level] is a [uint32]; these are the library's constants. *)
Module logrus.
Definition Level := N.
Definition PanicLevel : Level := 0%N.
Definition FatalLevel : Level := 1%N.
Definition ErrorLevel : Level := 2%N.
Definition WarnLevel : Level := 3%N.
Definition InfoLevel : Level := 4%N.
Definition DebugLevel : Level := 5%N.
Definition TraceLevel : Level := 6%N.
Definition ErrorKey : string := "error".
End logrus.

Definition levelsToSeverity : gmap N severity :=
  list_to_map
    [ (logrus.DebugLevel, severityDebug);
      (logrus.InfoLevel, severityInfo);
      (logrus.WarnLevel, severityWarning);
      (logrus.ErrorLevel, severityError);
      (logrus.FatalLevel, severityCritical);
      (logrus.PanicLevel, severityAlert) ].

Definition KeyTrace : string := "trace".
Definition KeySpanID : string := "spanID".
Definition KeyHTTPRequest : string := "httpRequest".
Definition KeyLogID : string := "logID".

Record ServiceContext := mkServiceContext {
  Service : string;
  Version : string
}.

Record ReportLocation := mkReportLocation {
  FilePath : string;
  LineNumber : Z;
  FunctionName : string
}.

Record HTTPRequest := mkHTTPRequest {
  RequestMethod : string;
  RequestURL : string;
  RequestSize : string;
  Status : string;
  ResponseSize : string;
  UserAgent : string;
  RemoteIP : string;
  ServerIP : string;
  Referer : string;
  Latency : string;
  Protocol : string
}.

(** A dynamic value ([interface{}]) stored in a field map, by the cases
    the code tells apart: a [string], an [error] (given by its [Error()]
    text), a [*HTTPRequest] (nil or not), and any value of another type,
    given by what [%s] prints for it and by its JSON encoding ([None]
    when [encoding/json] rejects it). *)
Inductive Value : Type :=
| VString (s : string)
| VError (text : string) (enc : option json)
| VHTTPRequest (p : option HTTPRequest)
| VOther (shown : string) (enc : option json).

(** A map reference: [None] is the nil map, [Some l] the map at [l]. *)
Definition loc := nat.
Definition mapref := option loc.

Record Context := mkContext {
  Data : mapref;
  ctxReportLocation : option ReportLocation;
  ctxHTTPRequest : option HTTPRequest
}.

(** Pointer fields are options: [None] is the nil pointer. *)
Record Entry := mkEntry {
  LogName : string;
  Timestamp : string;
  entHTTPRequest : option HTTPRequest;
  Trace : string;
  SpanID : string;
  entServiceContext : option ServiceContext;
  Message : string;
  Severity : severity;
  entContext : option Context;
  SourceLocation : option ReportLocation
}.

Record Formatter := mkFormatter {
  fService : string;
  fVersion : string;
  ProjectID : string;
  StackSkip : list string
}.

(** The part of a [logrus.Entry] that the formatter reads. *)
Record logrusEntry := mkLogrusEntry {
  eData : mapref;
  eLevel : logrus.Level;
  eMessage : string
}.

(** ** Options and [NewFormatter] *)

Definition Option := Formatter → Formatter.

Definition WithService (n : string) : Option :=
  λ f, mkFormatter n (fVersion f) (ProjectID f) (StackSkip f).

Definition WithVersion (v : string) : Option :=
  λ f, mkFormatter (fService f) v (ProjectID f) (StackSkip f).

Definition WithProjectID (i : string) : Option :=
  λ f, mkFormatter (fService f) (fVersion f) i (StackSkip f).

Definition WithStackSkip (v : string) : Option :=
  λ f, mkFormatter (fService f) (fVersion f) (ProjectID f) (StackSkip f ++ [v]).

Definition NewFormatter (options : list Option) : Formatter :=
  foldl (λ fmtr opt, opt fmtr)
        (mkFormatter "" "" "" ["github.com/sirupsen/logrus"%string]) options.

(** ** The store of field maps and the state monad over it

    A Go map is a reference: [replaceErrors] allocates a new one and
    [delete] updates one in place.  [heap] holds the maps that exist. *)

Abbreviation Fields := (gmap string Value).
Abbreviation heap := (gmap loc (gmap string Value)).

Definition M (A : Type) : Type := heap → A * heap.

Global Instance M_ret : MRet M := λ A a h, (a, h).
Global Instance M_bind : MBind M :=
  λ A B k m h, let '(a, h') := m h in k a h'.

Module Map.

(** The contents behind a reference; the nil map reads as empty. *)
Definition contents (h : heap) (r : mapref) : Fields :=
  match r with
  | Some l => default ∅ (h !! l)
  | None => ∅
  end.

(** [make(logrus.Fields, n)]: a new empty map at an unused location. *)
Definition make : M loc :=
  λ h, let l := fresh (dom h) in (l, <[l := ∅]> h).

(** [m[k]] with the comma-ok form. *)
Definition index (r : mapref) (k : string) : M (option Value) :=
  λ h, (contents h r !! k, h).

(** [for k, v := range m]: the entries, read once. *)
Definition range (r : mapref) : M (list (string * Value)) :=
  λ h, (map_to_list (contents h r), h).

(** [m[k] = v] on a map that exists. *)
Definition store (l : loc) (k : string) (v : Value) : M unit :=
  λ h, (tt, alter (insert k v) l h).

(** [delete(m, k)]; a no-op on the nil map. *)
Definition delete (r : mapref) (k : string) : M unit :=
  λ h, (tt, match r with
            | Some l => alter (base.delete k) l h
            | None => h
            end).

End Map.

(** Run the statements of a loop body over a list, in order. *)
Fixpoint forM_ {A} (l : list A) (body : A → M unit) : M unit :=
  match l with
  | [] => mret tt
  | x :: l' => _ ← body x; forM_ l' body
  end.

(** ** The call stack and [stack.Call] (package go-stack/stack)

    A frame is given by what the format verbs print for it:
    [%+k] the import path of its package, [%+s] its file path, [%d] its
    line, [%n] its function name.  The zero [Call] is [None]. *)

Record Frame := mkFrame {
  frPackage : string;
  frFile : string;
  frLine : Z;
  frFunction : string
}.

Definition Call := option Frame.
Definition error := option string.

Module stack.

Definition ErrNoFunc : string := "no call stack information".

(** The error of [c.MarshalText()] (the text itself is not used). *)
Definition MarshalText (c : Call) : error :=
  match c with
  | None => Some ErrNoFunc
  | Some _ => None
  end.

(** [fmt.Sprintf("%"+verb, c)] for the zero Call. *)
Definition nofunc (verb : string) : string := "%!" +:+ verb +:+ "(NOFUNC)".

Definition Sprintf_plus_k (c : Call) : string :=
  match c with Some fr => frPackage fr | None => nofunc "k" end.
Definition Sprintf_plus_s (c : Call) : string :=
  match c with Some fr => frFile fr | None => nofunc "s" end.
Definition Sprintf_d (c : Call) : string :=
  match c with Some fr => Strconv.FormatInt (frLine fr) | None => nofunc "d" end.
Definition Sprintf_n (c : Call) : string :=
  match c with Some fr => frFunction fr | None => nofunc "n" end.

End stack.

(** What [ToEntry] reads besides its arguments: the package variable
    [skipTimestamp], the text of [time.Now().UTC().Format(RFC3339Nano)],
    and the frames of the call stack, innermost first, as [stack.Caller]
    numbers them from inside [errorOrigin]. *)
Record World := mkWorld {
  skipTimestamp : bool;
  now : string;
  callers : list Frame
}.

(** ** [fmt.Sprintf("%s", v)] for a dynamic value *)

Module Fmt.

Definition join_fields (r : HTTPRequest) : string :=
  RequestMethod r +:+ " " +:+ RequestURL r +:+ " " +:+ RequestSize r +:+ " "
  +:+ Status r +:+ " " +:+ ResponseSize r +:+ " " +:+ UserAgent r +:+ " "
  +:+ RemoteIP r +:+ " " +:+ ServerIP r +:+ " " +:+ Referer r +:+ " "
  +:+ Latency r +:+ " " +:+ Protocol r.

Definition Sprint_s (v : Value) : string :=
  match v with
  | VString s => s
  | VError text _ => text
  | VHTTPRequest (Some r) => "&{" +:+ join_fields r +:+ "}"
  | VHTTPRequest None => "%!s(" +:+ "*stackdriver.HTTPRequest=<nil>)"
  | VOther shown _ => shown
  end.

End Fmt.

(** ** [errorOrigin] *)

(** The closure [skip] of [errorOrigin]. *)
Definition skip (f : Formatter) (pkg : string) : bool :=
  existsb (λ s, String.eqb pkg s) (StackSkip f).

(** Lines 165-166: the package path with vendoring removed. *)
Definition devendor (pkg : string) : string :=
  let parts := Strings.SplitN2 pkg "/vendor/" in
  List.last parts pkg.

(** The loop of [errorOrigin], with [frames] the stack from index [i]
    on: [stack.Caller(i)] is its head, or the zero Call when the stack is
    exhausted. *)
Fixpoint walk (f : Formatter) (frames : list Frame) : Call * error :=
  let c : Call := head frames in
  match stack.MarshalText c with
  | Some _ => (None, None)
  | None =>
      let pkg := stack.Sprintf_plus_k c in
      let pkg := devendor pkg in
      if negb (skip f pkg) then (c, None)
      else match frames with
           | [] => (None, None)
           | _ :: outer => walk f outer
           end
  end.

Definition errorOrigin (f : Formatter) (w : World) : Call * error :=
  walk f (drop 3 (callers w)).

(** ** [replaceErrors] *)

Definition replaceError (v : Value) : Value :=
  match v with
  | VError text _ => VString text
  | _ => v
  end.

Definition replaceErrors (source : mapref) : M mapref :=
  data ← Map.make;
  kvs ← Map.range source;
  _ ← forM_ kvs (λ kv, Map.store data (fst kv) (replaceError (snd kv)));
  mret (Some data).

(** ** [ToEntry] *)

Definition set_Trace (s : string) (ee : Entry) : Entry :=
  mkEntry (LogName ee) (Timestamp ee) (entHTTPRequest ee) s (SpanID ee)
          (entServiceContext ee) (Message ee) (Severity ee) (entContext ee)
          (SourceLocation ee).
Definition set_SpanID (s : string) (ee : Entry) : Entry :=
  mkEntry (LogName ee) (Timestamp ee) (entHTTPRequest ee) (Trace ee) s
          (entServiceContext ee) (Message ee) (Severity ee) (entContext ee)
          (SourceLocation ee).
Definition set_HTTPRequest (r : option HTTPRequest) (ee : Entry) : Entry :=
  mkEntry (LogName ee) (Timestamp ee) r (Trace ee) (SpanID ee)
          (entServiceContext ee) (Message ee) (Severity ee) (entContext ee)
          (SourceLocation ee).
Definition set_LogName (s : string) (ee : Entry) : Entry :=
  mkEntry s (Timestamp ee) (entHTTPRequest ee) (Trace ee) (SpanID ee)
          (entServiceContext ee) (Message ee) (Severity ee) (entContext ee)
          (SourceLocation ee).
Definition set_Timestamp (s : string) (ee : Entry) : Entry :=
  mkEntry (LogName ee) s (entHTTPRequest ee) (Trace ee) (SpanID ee)
          (entServiceContext ee) (Message ee) (Severity ee) (entContext ee)
          (SourceLocation ee).
Definition set_Message (s : string) (ee : Entry) : Entry :=
  mkEntry (LogName ee) (Timestamp ee) (entHTTPRequest ee) (Trace ee) (SpanID ee)
          (entServiceContext ee) s (Severity ee) (entContext ee)
          (SourceLocation ee).
Definition set_SourceLocation (l : option ReportLocation) (ee : Entry) : Entry :=
  mkEntry (LogName ee) (Timestamp ee) (entHTTPRequest ee) (Trace ee) (SpanID ee)
          (entServiceContext ee) (Message ee) (Severity ee) (entContext ee) l.

(** Updates through the pointer [ee.Context]. *)
Definition upd_Context (g : Context → Context) (ee : Entry) : Entry :=
  mkEntry (LogName ee) (Timestamp ee) (entHTTPRequest ee) (Trace ee) (SpanID ee)
          (entServiceContext ee) (Message ee) (Severity ee) (g <$> entContext ee)
          (SourceLocation ee).
Definition set_ctxHTTPRequest (r : option HTTPRequest) (c : Context) : Context :=
  mkContext (Data c) (ctxReportLocation c) r.
Definition set_ctxReportLocation (l : option ReportLocation) (c : Context) : Context :=
  mkContext (Data c) l (ctxHTTPRequest c).

(** [ee.Context.Data] *)
Definition Context_Data (ee : Entry) : mapref :=
  entContext ee ≫= Data.

Definition is_error_severity (s : severity) : bool :=
  String.eqb s severityError || String.eqb s severityCritical
  || String.eqb s severityAlert.

(** The type assertions of [val] to [string] and to a pointer to
    [HTTPRequest], in their comma-ok form: [None] when the dynamic type
    is another one. *)
Definition assert_string (val : Value) : option string :=
  match val with
  | VString str => Some str
  | _ => None
  end.

Definition assert_HTTPRequest (val : Value) : option (option HTTPRequest) :=
  match val with
  | VHTTPRequest req => Some req
  | _ => None
  end.

Definition ToEntry (f : Formatter) (w : World) (e : logrusEntry) : M Entry :=
  let severity := default "" (levelsToSeverity !! eLevel e) in
  data ← replaceErrors (eData e);
  let ee :=
    mkEntry "" "" None "" "" (Some (mkServiceContext (fService f) (fVersion f)))
            (eMessage e) severity (Some (mkContext data None None)) None in
  val ← Map.index (eData e) KeyTrace;
  ee ← match val ≫= assert_string with
       | Some str =>
           _ ← Map.delete (Context_Data ee) KeyTrace;
           mret (set_Trace str ee)
       | None => mret ee
       end;
  val ← Map.index (eData e) KeySpanID;
  ee ← match val ≫= assert_string with
       | Some str =>
           _ ← Map.delete (Context_Data ee) KeySpanID;
           mret (set_SpanID str ee)
       | None => mret ee
       end;
  val ← Map.index (eData e) KeyHTTPRequest;
  ee ← match val ≫= assert_HTTPRequest with
       | Some req =>
           _ ← Map.delete (Context_Data ee) KeyHTTPRequest;
           mret (upd_Context (set_ctxHTTPRequest req) (set_HTTPRequest req ee))
       | None => mret ee
       end;
  val ← Map.index (eData e) KeyLogID;
  ee ← match val with
       | Some val =>
           if negb (String.eqb (ProjectID f) "") then
             match assert_string val with
             | Some str =>
                 _ ← Map.delete (Context_Data ee) KeyLogID;
                 mret (set_LogName
                         ("projects/" +:+ ProjectID f +:+ "/logs/"
                          +:+ URL.QueryEscape str) ee)
             | None => mret ee
             end
           else mret ee
       | None => mret ee
       end;
  let ee := if negb (skipTimestamp w) then set_Timestamp (now w) ee else ee in
  if is_error_severity severity then
    err ← Map.index (Context_Data ee) logrus.ErrorKey;
    ee ← match err with
         | Some err =>
             _ ← Map.delete (Context_Data ee) logrus.ErrorKey;
             mret (set_Message (eMessage e +:+ ": " +:+ Fmt.Sprint_s err) ee)
         | None => mret (set_Message (eMessage e) ee)
         end;
    let '(c, err) := errorOrigin f w in
    match err with
    | None =>
        let lineNumber := fst (Strconv.ParseInt (stack.Sprintf_d c)) in
        let location :=
          Some (mkReportLocation (stack.Sprintf_plus_s c) lineNumber
                                 (stack.Sprintf_n c)) in
        mret (set_SourceLocation location
                (upd_Context (set_ctxReportLocation location) ee))
    | Some _ => mret ee
    end
  else mret ee.

(** ** [json.Marshal] of an [Entry] and [Format]

    Every field of the structs carries [omitempty]: a string is left out
    when empty, an int when 0, a pointer when nil, a map when it has no
    entry. *)

Module Json.

Definition str (name s : string) : list (string * json) :=
  if String.eqb s "" then [] else [(name, JString s)].

Definition int (name : string) (n : Z) : list (string * json) :=
  if n =? 0 then [] else [(name, JNumber n)].

Definition ptr {A} (name : string) (enc : A → json) (p : option A)
  : list (string * json) :=
  match p with
  | Some a => [(name, enc a)]
  | None => []
  end.

Definition ofHTTPRequest (r : HTTPRequest) : json :=
  JObject (str "requestMethod" (RequestMethod r)
           ++ str "requestUrl" (RequestURL r)
           ++ str "requestSize" (RequestSize r)
           ++ str "status" (Status r)
           ++ str "responseSize" (ResponseSize r)
           ++ str "userAgent" (UserAgent r)
           ++ str "remoteIp" (RemoteIP r)
           ++ str "serverIp" (ServerIP r)
           ++ str "referer" (Referer r)
           ++ str "latency" (Latency r)
           ++ str "protocol" (Protocol r)).

Definition ofServiceContext (c : ServiceContext) : json :=
  JObject (str "service" (Service c) ++ str "version" (Version c)).

Definition ofReportLocation (l : ReportLocation) : json :=
  JObject (str "filePath" (FilePath l)
           ++ int "lineNumber" (LineNumber l)
           ++ str "functionName" (FunctionName l)).

(** A dynamic value; [None] when the encoder reports an error. *)
Definition ofValue (v : Value) : option json :=
  match v with
  | VString s => Some (JString s)
  | VError _ enc => enc
  | VHTTPRequest None => Some JNull
  | VHTTPRequest (Some r) => Some (ofHTTPRequest r)
  | VOther _ enc => enc
  end.

(** Map keys are written in sorted order. *)
Definition key_le (a b : string * Value) : Prop :=
  String.leb (fst a) (fst b) = true.

Global Instance key_le_dec : RelDecision key_le.
Proof. intros a b. unfold key_le. apply _. Defined.

Definition sorted_entries (m : Fields) : list (string * Value) :=
  merge_sort key_le (map_to_list m).

Definition ofFields (m : Fields) : option json :=
  ms ← mapM (λ kv, j ← ofValue (snd kv); Some (fst kv, j)) (sorted_entries m);
  Some (JObject ms).

Definition ofContext (h : heap) (c : Context) : option json :=
  let m := Map.contents h (Data c) in
  data ← (if decide (m = ∅) then Some []
          else j ← ofFields m; Some [("data"%string, j)]);
  Some (JObject (data
                 ++ ptr "reportLocation" ofReportLocation (ctxReportLocation c)
                 ++ ptr "httpRequest" ofHTTPRequest (ctxHTTPRequest c))).

Definition Marshal (h : heap) (ee : Entry) : option json :=
  context ← match entContext ee with
            | Some c => j ← ofContext h c; Some [("context"%string, j)]
            | None => Some []
            end;
  Some (JObject (str "logName" (LogName ee)
                 ++ str "timestamp" (Timestamp ee)
                 ++ ptr "httpRequest" ofHTTPRequest (entHTTPRequest ee)
                 ++ str "trace" (Trace ee)
                 ++ str "spanId" (SpanID ee)
                 ++ ptr "serviceContext" ofServiceContext (entServiceContext ee)
                 ++ str "message" (Message ee)
                 ++ str "severity" (Severity ee)
                 ++ context
                 ++ ptr "sourceLocation" ofReportLocation (SourceLocation ee))).

End Json.

(** [json.Marshal(ee)] reads the field map behind [ee.Context.Data]. *)
Definition Marshal (ee : Entry) : M (option json) :=
  λ h, (Json.Marshal h ee, h).

(** [Format]: the document written and the text appended to it, or
    [None] when [json.Marshal] fails. *)
Definition Format (f : Formatter) (w : World) (e : logrusEntry)
  : M (option (json * string)) :=
  ee ← ToEntry f w e;
  b ← Marshal ee;
  match b with
  | None => mret None
  | Some b => mret (Some (b, String "010"%char EmptyString))
  end.

(** ** Running the code on examples *)

Module Examples.

Definition testFormatter : Formatter :=
  NewFormatter [WithService "test"; WithVersion "0.1"].

Definition testStack : list Frame :=
  [ mkFrame "github.com/shortcut/logrus-stackdriver-formatter" "formatter.go" 146
            "Formatter.errorOrigin";
    mkFrame "github.com/shortcut/logrus-stackdriver-formatter" "formatter.go" 252
            "Formatter.ToEntry";
    mkFrame "github.com/shortcut/logrus-stackdriver-formatter" "formatter.go" 269
            "Formatter.Format";
    mkFrame "github.com/sirupsen/logrus" "github.com/sirupsen/logrus/entry.go" 289
            "Entry.write";
    mkFrame "github.com/sirupsen/logrus" "github.com/sirupsen/logrus/entry.go" 252
            "Entry.log";
    mkFrame "github.com/shortcut/logrus-stackdriver-formatter"
            "github.com/shortcut/logrus-stackdriver-formatter/formatter_test.go" 64
            "glob..func2";
    mkFrame "testing" "testing/testing.go" 1446 "tRunner";
    mkFrame "runtime" "runtime/asm_amd64.s" 1594 "goexit" ].

Definition testWorld : World := mkWorld true "" testStack.

(** A store with one field map, at location 0. *)
Definition store1 (m : Fields) : heap := {[ 0%nat := m ]}.

Definition entry0 (lvl : logrus.Level) (msg : string) : logrusEntry :=
  mkLogrusEntry (Some 0%nat) lvl msg.

End Examples.

(** * Vocabulary of the statements *)

(** A reference is valid in a store when it is nil or allocated. *)
Definition valid_ref (h : heap) (r : mapref) : Prop :=
  match r with
  | Some l => is_Some (h !! l)
  | None => True
  end.

Section run_vocabulary.

Variables (f : Formatter) (w : World) (e : logrusEntry).

(** The severity computed on line 191. *)
Definition severity_of : severity := default "" (levelsToSeverity !! eLevel e).

Definition drop_if (b : bool) (k : string) (m : Fields) : Fields :=
  if b then delete k m else m.

Definition present {A} (o : option A) : bool :=
  match o with Some _ => true | None => false end.

(** The map behind [ee.Context.Data] when [ToEntry] returns, for the
    source field map [src]. *)
Definition context_data (src : Fields) : Fields :=
  drop_if (is_error_severity severity_of) logrus.ErrorKey
    (drop_if (present (src !! KeyLogID ≫= assert_string)
              && negb (String.eqb (ProjectID f) "")) KeyLogID
       (drop_if (present (src !! KeyHTTPRequest ≫= assert_HTTPRequest)) KeyHTTPRequest
          (drop_if (present (src !! KeySpanID ≫= assert_string)) KeySpanID
             (drop_if (present (src !! KeyTrace ≫= assert_string)) KeyTrace
                (replaceError <$> src))))).

(** The location built on lines 252-258. *)
Definition location_of : option ReportLocation :=
  if is_error_severity severity_of then
    let c := fst (errorOrigin f w) in
    match snd (errorOrigin f w) with
    | None =>
        Some (mkReportLocation (stack.Sprintf_plus_s c)
                (fst (Strconv.ParseInt (stack.Sprintf_d c))) (stack.Sprintf_n c))
    | Some _ => None
    end
  else None.

(** The entry returned, for the source field map [src] and the
    location [d] of the new map. *)
Definition entry_of (src : Fields) (d : loc) : Entry :=
  mkEntry
    (match src !! KeyLogID ≫= assert_string with
     | Some str =>
         if negb (String.eqb (ProjectID f) "")
         then "projects/" +:+ ProjectID f +:+ "/logs/" +:+ URL.QueryEscape str
         else ""
     | None => ""
     end)
    (if negb (skipTimestamp w) then now w else "")
    (default None (src !! KeyHTTPRequest ≫= assert_HTTPRequest))
    (default "" (src !! KeyTrace ≫= assert_string))
    (default "" (src !! KeySpanID ≫= assert_string))
    (Some (mkServiceContext (fService f) (fVersion f)))
    (if is_error_severity severity_of then
       match (replaceError <$> src) !! logrus.ErrorKey with
       | Some err => eMessage e +:+ ": " +:+ Fmt.Sprint_s err
       | None => eMessage e
       end
     else eMessage e)
    severity_of
    (Some (mkContext (Some d) location_of
             (default None (src !! KeyHTTPRequest ≫= assert_HTTPRequest))))
    location_of.

End run_vocabulary.

(** The map behind [ee.Context.Data] of the entry that [ToEntry] returns,
    read in the store that it leaves. *)
Definition emitted_data (f : Formatter) (w : World) (e : logrusEntry) (h : heap)
  : Fields :=
  Map.contents (snd (ToEntry f w e h)) (Context_Data (fst (ToEntry f w e h))).

Definition error_or_worse (s : severity) : Prop :=
  s = severityError ∨ s = severityCritical ∨ s = severityAlert.

(** The recognized keys are absent from the context data. *)
Definition recognized_keys_absent (f : Formatter) (w : World) (e : logrusEntry)
    (h : heap) : Prop :=
  emitted_data f w e h !! KeyTrace = None
  ∧ emitted_data f w e h !! KeySpanID = None
  ∧ emitted_data f w e h !! KeyHTTPRequest = None
  ∧ (ProjectID f ≠ "" → emitted_data f w e h !! KeyLogID = None).

Definition vendorMarker : string := "/vendor/".

(** The location built from the zero [Call]. *)
Definition noLocation : ReportLocation :=
  mkReportLocation "%!s(NOFUNC)" 0 "%!n(NOFUNC)".

(** The members that hold the context data, or [None] when a value of
    the map cannot be encoded. *)
Definition data_members (m : Fields) : option (list (string * json)) :=
  if decide (m = ∅) then Some []
  else d ← Json.ofFields m; Some [("data"%string, d)].

(** The document that [Format] writes, from the entry and the map that
    [ToEntry] produce. *)
Definition document (ee : Entry) (data : list (string * json))
    (c : Context) : json :=
  JObject (Json.str "logName" (LogName ee)
           ++ Json.str "timestamp" (Timestamp ee)
           ++ Json.ptr "httpRequest" Json.ofHTTPRequest (entHTTPRequest ee)
           ++ Json.str "trace" (Trace ee)
           ++ Json.str "spanId" (SpanID ee)
           ++ Json.ptr "serviceContext" Json.ofServiceContext (entServiceContext ee)
           ++ Json.str "message" (Message ee)
           ++ Json.str "severity" (Severity ee)
           ++ [("context"%string,
                JObject (data
                         ++ Json.ptr "reportLocation" Json.ofReportLocation
                              (ctxReportLocation c)
                         ++ Json.ptr "httpRequest" Json.ofHTTPRequest
                              (ctxHTTPRequest c)))]
           ++ Json.ptr "sourceLocation" Json.ofReportLocation (SourceLocation ee)).

(** Field maps and values of the examples. *)

(** A field that holds the integer 5. *)
Definition int5 : Value := VOther "%!s(int=5)" (Some (JNumber 5)).

Definition fields_err : Fields :=
  {[ "foo"%string := VString "bar";
     logrus.ErrorKey := VError "test error" None ]}.

Definition fields_trace : Fields :=
  {[ KeyTrace := VString "my-trace"; KeySpanID := VString "my-span" ]}.

(** A frame that the loop of [errorOrigin] passes over. *)
Definition skipped (f : Formatter) (fr : Frame) : bool :=
  skip f (devendor (frPackage fr)).

(** The members of the document, in the order of the struct fields. *)
Definition entryMembers : list string :=
  [ "logName"; "timestamp"; "httpRequest"; "trace"; "spanId"; "serviceContext";
    "message"; "severity"; "context"; "sourceLocation" ]%string.

Definition contextMembers : list string :=
  [ "data"; "reportLocation"; "httpRequest" ]%string.

Definition keys (j : json) : list string :=
  match j with
  | JObject ms => fst <$> ms
  | _ => []
  end.


(** Reading back one escaped byte; used to invert [QueryEscape]. *)
Definition hexval (c : ascii) : nat :=
  let n := nat_of_ascii c in
  if (n <? 58)%nat then (n - 48)%nat else (n - 55)%nat.

Definition decode_unit (s : string) : option (ascii * string) :=
  match s with
  | EmptyString => None
  | String c rest =>
      if Ascii.eqb c "+" then Some (" "%char, rest)
      else if Ascii.eqb c "%" then
        match rest with
        | String hi (String lo rest') =>
            Some (ascii_of_nat (16 * hexval hi + hexval lo), rest')
        | _ => None
        end
      else Some (c, rest)
  end.


(** * Verification *)

Import Examples.

(** ** The store: running [replaceErrors] *)

Section store_lemmas.

Implicit Types (h : heap) (m : Fields) (r : mapref) (l : loc).

Lemma fresh_not_allocated h : h !! fresh (dom h) = None.
Proof. apply not_elem_of_dom, is_fresh. Qed.

Lemma contents_insert_fresh h r m :
  Map.contents (<[fresh (dom h) := m]> h) r
  = if decide (r = Some (fresh (dom h))) then m else Map.contents h r.
Proof.
  destruct r as [l|]; simpl.
  - case_decide as Heq.
    + inversion Heq; subst l. by rewrite lookup_insert_eq.
    + rewrite lookup_insert_ne; [done | congruence].
  - done.
Qed.

Lemma contents_insert_valid h r m :
  valid_ref h r →
  Map.contents (<[fresh (dom h) := m]> h) r = Map.contents h r.
Proof.
  intros Hv. rewrite contents_insert_fresh. case_decide as Heq; [|done].
  subst r. simpl in Hv. rewrite fresh_not_allocated in Hv.
  by destruct Hv.
Qed.

Lemma contents_fresh h m :
  Map.contents (<[fresh (dom h) := m]> h) (Some (fresh (dom h))) = m.
Proof. simpl. by rewrite lookup_insert_eq. Qed.

(** The stores of a [range] loop amount to a fold of inserts. *)
Lemma forM_store_run l (g : Value → Value) kvs h :
  forM_ kvs (λ kv, Map.store l (fst kv) (g (snd kv))) h
  = (tt, alter (λ m, foldl (λ m kv, <[fst kv := g (snd kv)]> m) m kvs) l h).
Proof.
  revert h. induction kvs as [|kv kvs IH]; intros h; simpl.
  - by rewrite alter_id.
  - unfold mbind, M_bind, Map.store. rewrite IH. f_equal.
    by rewrite alter_alter_eq.
Qed.

Lemma foldl_insert_lookup (g : Value → Value) (kvs : list (string * Value)) m k :
  NoDup kvs.*1 →
  foldl (λ m kv, <[fst kv := g (snd kv)]> m) m kvs !! k
  = match (list_to_map kvs : Fields) !! k with
    | Some v => Some (g v)
    | None => m !! k
    end.
Proof.
  revert m. induction kvs as [|[k0 v0] kvs IH]; intros m Hnd; simpl.
  - by rewrite lookup_empty.
  - apply NoDup_cons in Hnd as [Hk0 Hnd]. rewrite IH by done.
    destruct (decide (k0 = k)) as [->|Hne].
    + rewrite lookup_insert_eq.
      rewrite (not_elem_of_list_to_map_1 kvs k) by done.
      by rewrite lookup_insert_eq.
    + rewrite (lookup_insert_ne (list_to_map kvs)) by done.
      destruct (list_to_map kvs !! k); [done|].
      by rewrite lookup_insert_ne.
Qed.

Lemma foldl_insert_fmap (g : Value → Value) m :
  foldl (λ m kv, <[fst kv := g (snd kv)]> m) ∅ (map_to_list m) = g <$> m.
Proof.
  apply map_eq; intros k.
  rewrite foldl_insert_lookup by apply NoDup_fst_map_to_list.
  rewrite list_to_map_to_list, lookup_fmap, lookup_empty.
  by destruct (m !! k).
Qed.

(** [replaceErrors] allocates one map, fills it with the entries of the
    source (errors replaced by their text) and touches nothing else. *)
Lemma replaceErrors_run h r :
  replaceErrors r h
  = (Some (fresh (dom h)),
     <[fresh (dom h) := replaceError <$> Map.contents h r]> h).
Proof.
  unfold replaceErrors, mbind, M_bind, Map.make, Map.range, mret, M_ret.
  rewrite forM_store_run. f_equal.
  rewrite alter_insert_eq. f_equal.
  rewrite contents_insert_fresh. case_decide as Heq.
  - subst r. simpl. rewrite fresh_not_allocated. simpl.
    by rewrite map_to_list_empty, fmap_empty.
  - apply foldl_insert_fmap.
Qed.

End store_lemmas.

(** ** Running [ToEntry]: the entry returned and the store left behind *)

Section ToEntry_run.

Variables (f : Formatter) (w : World) (e : logrusEntry).

Lemma ToEntry_run (h : heap) :
  valid_ref h (eData e) →
  ToEntry f w e h
  = (entry_of f w e (Map.contents h (eData e)) (fresh (dom h)),
     <[fresh (dom h) := context_data f e (Map.contents h (eData e))]> h).
Proof.
  intros Hv.
  assert (Hc : ∀ m, Map.contents (<[fresh (dom h) := m]> h) (eData e)
                    = Map.contents h (eData e))
    by (intros; by apply contents_insert_valid).
  unfold ToEntry, entry_of, context_data, location_of.
  fold (severity_of e).
  unfold mbind at 1. unfold M_bind at 1. rewrite replaceErrors_run.
  revert Hc. generalize (fresh (dom h)) as d.
  generalize (Map.contents h (eData e)) as src. intros src d Hc.
  generalize (severity_of e) as sev. intros sev.
  generalize (eq_refl (replaceError <$> src)).
  generalize (replaceError <$> src) at 1 3 4 5 as m0. intros m0 Hm0.
  unfold Context_Data, mbind, M_bind, mret, M_ret, Map.index, Map.delete.
  destruct (src !! KeyTrace ≫= assert_string) as [tr|] eqn:E1;
  destruct (src !! KeySpanID ≫= assert_string) as [sp|] eqn:E2;
  destruct (src !! KeyHTTPRequest ≫= assert_HTTPRequest) as [rq|] eqn:E3;
  (destruct (src !! KeyLogID) as [v|] eqn:E4;
   [destruct (assert_string v) as [lg|] eqn:E5;
    destruct (negb (String.eqb (ProjectID f) "")) eqn:E6|]);
  destruct (negb (skipTimestamp w)) eqn:E7;
  (destruct (is_error_severity sev) eqn:E8;
   [destruct (errorOrigin f w) as [c [err|]];
    destruct (m0 !! logrus.ErrorKey) as [ev|] eqn:E9|]).
  all: unfold mbind in E1, E2, E3.
  all: repeat (progress (cbv beta iota zeta;
    cbn [entContext Data set_Trace set_SpanID set_HTTPRequest set_LogName
         set_Timestamp set_Message set_SourceLocation upd_Context
         set_ctxHTTPRequest set_ctxReportLocation option_bind fmap option_fmap
         option_map fst snd present drop_if default id Map.contents andb];
    rewrite ?alter_insert_eq, ?lookup_insert_eq, ?Hc,
            ?E1, ?E2, ?E3, ?E4, ?E5, ?E6;
    rewrite ?lookup_delete_ne by done; rewrite ?E9)).
  all: try reflexivity.
  all: f_equal; f_equal; symmetry; apply delete_id;
    by rewrite ?lookup_delete_ne.
Qed.

End ToEntry_run.

(** ** What [ToEntry] leaves in the copied map *)

Section data_lemmas.

Variables (f : Formatter) (w : World) (e : logrusEntry).

Lemma is_error_severity_spec s :
  is_error_severity s = true ↔ error_or_worse s.
Proof.
  unfold is_error_severity, error_or_worse.
  rewrite !orb_true_iff, !String.eqb_eq. tauto.
Qed.

Lemma is_error_severity_false s :
  is_error_severity s = false ↔ ¬ error_or_worse s.
Proof.
  rewrite <-is_error_severity_spec. by destruct (is_error_severity s).
Qed.

Lemma lookup_drop_if b k k' (m : Fields) :
  drop_if b k m !! k' = if b && String.eqb k k' then None else m !! k'.
Proof.
  destruct b; simpl; [|done].
  destruct (String.eqb_spec k k') as [->|Hne].
  - apply lookup_delete_eq.
  - by apply lookup_delete_ne.
Qed.

Lemma emitted_data_run h :
  valid_ref h (eData e) →
  emitted_data f w e h = context_data f e (Map.contents h (eData e)).
Proof.
  intros Hv. unfold emitted_data. rewrite ToEntry_run by done.
  simpl. by rewrite lookup_insert_eq.
Qed.

Lemma Severity_run h :
  valid_ref h (eData e) →
  Severity (fst (ToEntry f w e h)) = severity_of e.
Proof. intros Hv. by rewrite ToEntry_run. Qed.

End data_lemmas.

(** Claim C1.  For an entry whose field map holds an error under the
    error key: when the severity is ERROR, CRITICAL or ALERT the message
    of the result is the original message, a colon and a space, and the
    error text, and the error key is absent from the context data; when
    the severity is below ERROR the context data maps the error key to
    the error text and the message is the original one. *)
Theorem error_folded_or_kept f w e h text enc :
  valid_ref h (eData e) →
  Map.contents h (eData e) !! logrus.ErrorKey = Some (VError text enc) →
  let ee := fst (ToEntry f w e h) in
  (error_or_worse (Severity ee) →
     Message ee = eMessage e +:+ ": " +:+ text
     ∧ emitted_data f w e h !! logrus.ErrorKey = None)
  ∧ (¬ error_or_worse (Severity ee) →
     emitted_data f w e h !! logrus.ErrorKey = Some (VString text)
     ∧ Message ee = eMessage e).
Proof.
  intros Hv Herr. cbv zeta.
  rewrite emitted_data_run, ToEntry_run by done.
  unfold context_data, entry_of. cbn [fst Severity Message].
  rewrite !lookup_drop_if. cbn [String.eqb Ascii.eqb andb logrus.ErrorKey KeyLogID KeyHTTPRequest KeySpanID KeyTrace].
  rewrite ?andb_false_r, andb_true_r. 
  rewrite lookup_fmap, Herr. simpl.
  split; intros Hs.
  - apply is_error_severity_spec in Hs. by rewrite Hs.
  - apply is_error_severity_false in Hs. by rewrite Hs.
Qed.

Lemma Format_run f w e h :
  Format f w e h
  = (match Json.Marshal (snd (ToEntry f w e h)) (fst (ToEntry f w e h)) with
     | Some b => Some (b, String "010"%char EmptyString)
     | None => None
     end, snd (ToEntry f w e h)).
Proof.
  unfold Format, mbind, M_bind, Marshal, mret, M_ret.
  destruct (ToEntry f w e h) as [ee h']; simpl.
  by destruct (Json.Marshal h' ee).
Qed.

(** Claim C10.  [ToEntry] and [Format] leave every map that existed
    before the call as it was, the caller's field map among them: the
    map they update is a new one, at a location that was unused. *)
Theorem caller_fields_unchanged f w e h :
  valid_ref h (eData e) →
  let after := snd (ToEntry f w e h) in
  let after' := snd (Format f w e h) in
  (∀ l, is_Some (h !! l) → after !! l = h !! l ∧ after' !! l = h !! l)
  ∧ Map.contents after (eData e) = Map.contents h (eData e)
  ∧ Map.contents after' (eData e) = Map.contents h (eData e)
  ∧ Context_Data (fst (ToEntry f w e h)) = Some (fresh (dom h))
  ∧ h !! fresh (dom h) = None.
Proof.
  intros Hv. cbv zeta. rewrite Format_run. cbn [snd].
  rewrite ToEntry_run by done. cbn [fst snd].
  split_and!.
  - intros l [m Hl].
    assert (fresh (dom h) ≠ l).
    { intros <-. by rewrite fresh_not_allocated in Hl. }
    by rewrite lookup_insert_ne.
  - by apply contents_insert_valid.
  - by apply contents_insert_valid.
  - done.
  - apply fresh_not_allocated.
Qed.

(** Claim C6.  For a field map that holds a string under the log-name
    key: with a non-empty project id the log name of the result is
    projects/{project}/logs/{escaped value} and the key is removed from
    the context data; with an empty project id the key stays in the
    context data with its value and no log name is set. *)
Theorem log_name_from_logID f w e h str :
  valid_ref h (eData e) →
  Map.contents h (eData e) !! KeyLogID = Some (VString str) →
  let ee := fst (ToEntry f w e h) in
  (ProjectID f ≠ "" →
     LogName ee = "projects/" +:+ ProjectID f +:+ "/logs/" +:+ URL.QueryEscape str
     ∧ emitted_data f w e h !! KeyLogID = None)
  ∧ (ProjectID f = "" →
     emitted_data f w e h !! KeyLogID = Some (VString str)
     ∧ LogName ee = "").
Proof.
  intros Hv Hid. cbv zeta.
  rewrite emitted_data_run, ToEntry_run by done.
  unfold context_data, entry_of. cbn [fst LogName].
  rewrite !lookup_drop_if, Hid.
  cbn [String.eqb Ascii.eqb andb logrus.ErrorKey KeyLogID KeyHTTPRequest KeySpanID
       KeyTrace mbind option_bind assert_string present].
  rewrite ?andb_false_r, ?andb_true_r, lookup_fmap, Hid. simpl.
  split; intros Hp.
  - apply String.eqb_neq in Hp. by rewrite Hp.
  - apply String.eqb_eq in Hp. by rewrite Hp.
Qed.

(** Claim C2 as stated fails: a recognized key (here trace) whose
    value is not a string stays in the context data. *)
Lemma recognized_key_of_other_type_stays :
  ¬ (∀ f w e h, valid_ref h (eData e) → recognized_keys_absent f w e h).
Proof.
  intros Hall.
  destruct (Hall testFormatter testWorld (entry0 logrus.InfoLevel "msg")
              (store1 {[ KeyTrace := int5 ]})) as [Htrace _].
  - by eexists.
  - vm_compute in Htrace. discriminate.
Qed.

(** Claim C2, amended.  A recognized key whose value has the type the
    code asserts (a string for trace, spanID and, with a non-empty
    project id, logID; a pointer to HTTPRequest for httpRequest) is
    absent from the context data and its value is in the dedicated field
    of the entry; a recognized key with a value of another type stays
    in the context data. *)
Theorem recognized_keys_extracted f w e h :
  valid_ref h (eData e) →
  let src := Map.contents h (eData e) in
  let ee := fst (ToEntry f w e h) in
  (∀ s, src !! KeyTrace = Some (VString s) →
        emitted_data f w e h !! KeyTrace = None ∧ Trace ee = s)
  ∧ (∀ s, src !! KeySpanID = Some (VString s) →
          emitted_data f w e h !! KeySpanID = None ∧ SpanID ee = s)
  ∧ (∀ req, src !! KeyHTTPRequest = Some (VHTTPRequest req) →
            emitted_data f w e h !! KeyHTTPRequest = None
            ∧ entHTTPRequest ee = req
            ∧ entContext ee ≫= ctxHTTPRequest = req)
  ∧ (∀ s, src !! KeyLogID = Some (VString s) → ProjectID f ≠ "" →
          emitted_data f w e h !! KeyLogID = None
          ∧ LogName ee
            = "projects/" +:+ ProjectID f +:+ "/logs/" +:+ URL.QueryEscape s)
  ∧ (∀ k v, k ∈ [KeyTrace; KeySpanID; KeyLogID] →
            src !! k = Some v → assert_string v = None →
            emitted_data f w e h !! k = Some (replaceError v))
  ∧ (∀ v, src !! KeyHTTPRequest = Some v → assert_HTTPRequest v = None →
          emitted_data f w e h !! KeyHTTPRequest = Some (replaceError v)).
Proof.
  intros Hv. cbv zeta.
  rewrite emitted_data_run, ToEntry_run by done.
  unfold context_data, entry_of.
  cbn [fst LogName Trace SpanID entHTTPRequest entContext mbind option_bind
       ctxHTTPRequest].
  split_and!.
  - intros s Hs. rewrite !lookup_drop_if, Hs. simpl.
    by rewrite ?andb_false_r.
  - intros s Hs. rewrite !lookup_drop_if, Hs. simpl.
    by rewrite ?andb_false_r.
  - intros s Hs. rewrite !lookup_drop_if, Hs. simpl.
    by rewrite ?andb_false_r.
  - intros s Hs Hp. apply String.eqb_neq in Hp.
    rewrite !lookup_drop_if, Hs, Hp. simpl. by rewrite ?andb_false_r.
  - intros k v Hk Hs Hv'. rewrite !lookup_drop_if.
    rewrite !elem_of_cons, elem_of_nil in Hk.
    destruct Hk as [->|[->|[->|[]]]]; rewrite Hs; simpl; rewrite Hv'; simpl;
      rewrite ?andb_false_r, lookup_fmap, Hs; done.
  - intros v Hs Hv'. rewrite !lookup_drop_if, Hs. simpl. rewrite Hv'. simpl.
    by rewrite ?andb_false_r, lookup_fmap, Hs.
Qed.

(** ** Strings: cutting at the first occurrence *)

Section string_lemmas.

Implicit Types s p x y sep : string.

Lemma append_cons c x y : String c x +:+ y = String c (x +:+ y).
Proof. reflexivity. Qed.

Lemma append_nil_l y : "" +:+ y = y.
Proof. reflexivity. Qed.

Lemma append_assoc x y s : (x +:+ y) +:+ s = x +:+ y +:+ s.
Proof.
  induction x as [|c x IH]; [done|]. by rewrite !append_cons, IH.
Qed.



Lemma HasPrefix_spec s p :
  Strings.HasPrefix s p = true ↔ ∃ t, s = p +:+ t.
Proof.
  revert s. induction p as [|a p IH]; intros s.
  - split; [intros _; by exists s | done].
  - destruct s as [|b s]; simpl.
    + split; [done | intros [t Ht]; discriminate].
    + destruct (Ascii.eqb_spec a b) as [->|Hne].
      * rewrite IH. split; intros [t Ht]; exists t;
          rewrite ?append_cons in *; congruence.
      * split; [done | intros [t Ht]; rewrite append_cons in Ht; congruence].
Qed.

Lemma skipn_append p s : Strings.skipn (String.length p) (p +:+ s) = s.
Proof. induction p as [|a p IH]; [by destruct s|]. by rewrite append_cons. Qed.

(** A found cut splits the text around the separator. *)
Lemma Cut_Some s sep before after :
  Strings.Cut s sep = Some (before, after) → s = before +:+ sep +:+ after.
Proof.
  revert before. induction s as [|c s IH]; intros before; simpl.
  - destruct (Strings.HasPrefix "" sep) eqn:Hp; [|done].
    apply HasPrefix_spec in Hp as [t Ht]. intros [= <- <-].
    destruct sep; [done | discriminate].
  - destruct (Strings.HasPrefix (String c s) sep) eqn:Hp.
    + apply HasPrefix_spec in Hp as [t Ht]. intros [= <- <-].
      rewrite Ht at 1. by rewrite Ht, skipn_append.
    + destruct (Strings.Cut s sep) as [[b a]|] eqn:Hc; [|done].
      intros [= <- <-]. rewrite append_cons. f_equal. by apply IH.
Qed.

Lemma Cut_at_prefix s sep :
  Strings.HasPrefix s sep = true →
  Strings.Cut s sep = Some ("", Strings.skipn (String.length sep) s).
Proof. intros Hp. destruct s; simpl; by rewrite Hp. Qed.

Lemma Cut_cons c s sep :
  Strings.HasPrefix (String c s) sep = false →
  Strings.Cut (String c s) sep
  = match Strings.Cut s sep with
    | Some (before, after) => Some (String c before, after)
    | None => None
    end.
Proof. intros Hp. simpl. by rewrite Hp. Qed.

(** The separator occurs exactly when a cut is found. *)
Lemma Cut_is_Some s sep :
  is_Some (Strings.Cut s sep) ↔ Strings.occurs sep s.
Proof.
  split.
  - intros [[b a] Hc]. exists b, a. by apply Cut_Some.
  - intros (b & a & ->). induction b as [|c b IH].
    + rewrite append_nil_l, Cut_at_prefix; [done|].
      apply HasPrefix_spec. by exists a.
    + rewrite append_cons.
      destruct (Strings.HasPrefix (String c (b +:+ sep +:+ a)) sep) eqn:Hp.
      * by rewrite Cut_at_prefix.
      * rewrite Cut_cons by done. by destruct IH as [[b' a'] ->].
Qed.

Lemma Cut_None s sep : ¬ Strings.occurs sep s → Strings.Cut s sep = None.
Proof.
  intros Hno. destruct (Strings.Cut s sep) eqn:Hc; [|done].
  destruct Hno. apply Cut_is_Some. by rewrite Hc.
Qed.



End string_lemmas.


(** ** [errorOrigin]: vendoring and the skip list *)

Lemma devendor_cut pkg :
  devendor pkg
  = match Strings.Cut pkg vendorMarker with
    | Some (_, after) => after
    | None => pkg
    end.
Proof.
  unfold devendor, Strings.SplitN2, vendorMarker.
  by destruct (Strings.Cut pkg "/vendor/") as [[b a]|].
Qed.


Lemma devendor_none pkg :
  ¬ Strings.occurs vendorMarker pkg → devendor pkg = pkg.
Proof. intros Hno. by rewrite devendor_cut, Cut_None. Qed.

Lemma walk_cons f fr outer :
  walk f (fr :: outer)
  = if skip f (devendor (frPackage fr)) then walk f outer else (Some fr, None).
Proof. simpl. by destruct (skip f (devendor (frPackage fr))). Qed.




(** ** The stack is exhausted *)

Lemma walk_exhausted f frames :
  Forall (λ fr, skip f (devendor (frPackage fr)) = true) frames →
  walk f frames = (None, None).
Proof.
  induction 1 as [|fr frames Hfr _ IH]; [done|].
  by rewrite walk_cons, Hfr.
Qed.

(** Claim C3, on the code.  When every frame from index 3 on is
    skipped, [errorOrigin] returns the zero Call with a nil error, and
    for an error severity [ToEntry] then sets both locations, to the
    location printed from the zero Call. *)
Theorem exhausted_stack_location f w e h :
  valid_ref h (eData e) →
  error_or_worse (severity_of e) →
  Forall (λ fr, skip f (devendor (frPackage fr)) = true) (drop 3 (callers w)) →
  let ee := fst (ToEntry f w e h) in
  errorOrigin f w = (None, None)
  ∧ SourceLocation ee = Some noLocation
  ∧ entContext ee ≫= ctxReportLocation = Some noLocation.
Proof.
  intros Hv Hsev Hskip. cbv zeta.
  assert (errorOrigin f w = (None, None)) as Ho
    by (unfold errorOrigin; by apply walk_exhausted).
  rewrite ToEntry_run by done. unfold entry_of, location_of.
  apply is_error_severity_spec in Hsev. rewrite Hsev, Ho. done.
Qed.

Lemma exhausted_stack_location_witness :
  let f := NewFormatter [WithStackSkip "main"; WithStackSkip "runtime"] in
  let w := mkWorld true ""
             [ mkFrame "github.com/shortcut/logrus-stackdriver-formatter"
                       "formatter.go" 158 "Formatter.errorOrigin";
               mkFrame "github.com/shortcut/logrus-stackdriver-formatter"
                       "formatter.go" 252 "Formatter.ToEntry";
               mkFrame "github.com/shortcut/logrus-stackdriver-formatter"
                       "formatter.go" 269 "Formatter.Format";
               mkFrame "github.com/sirupsen/logrus" "entry.go" 289 "Entry.write";
               mkFrame "main" "main.go" 12 "main";
               mkFrame "runtime" "proc.go" 250 "main";
               mkFrame "runtime" "asm_amd64.s" 1594 "goexit" ] in
  let ee := fst (ToEntry f w (entry0 logrus.ErrorLevel "boom") (store1 ∅)) in
  errorOrigin f w = (None, None)
  ∧ SourceLocation ee = Some noLocation
  ∧ entContext ee ≫= ctxReportLocation = Some noLocation.
Proof.
  cbv zeta. apply exhausted_stack_location.
  - by eexists.
  - left. reflexivity.
  - repeat constructor.
Defined.


(** ** The members of the document *)

Section json_lemmas.

Implicit Types (k name : string) (ms : list (string * json)).

Lemma assoc_app k ms1 ms2 :
  assoc k (ms1 ++ ms2)
  = match assoc k ms1 with Some v => Some v | None => assoc k ms2 end.
Proof.
  induction ms1 as [|[k' v] ms1 IH]; simpl; [done|].
  by destruct (String.eqb k' k).
Qed.

Lemma assoc_str k name s :
  assoc k (Json.str name s)
  = if String.eqb name k && negb (String.eqb s "") then Some (JString s)
    else None.
Proof.
  unfold Json.str. destruct (String.eqb s ""); simpl.
  - by rewrite andb_false_r.
  - rewrite andb_true_r. by destruct (String.eqb name k).
Qed.

Lemma assoc_int k name n :
  assoc k (Json.int name n)
  = if String.eqb name k && negb (n =? 0) then Some (JNumber n) else None.
Proof.
  unfold Json.int. destruct (n =? 0); simpl.
  - by rewrite andb_false_r.
  - rewrite andb_true_r. by destruct (String.eqb name k).
Qed.

Lemma assoc_ptr {A} k name (enc : A → json) (p : option A) :
  assoc k (Json.ptr name enc p)
  = if String.eqb name k then enc <$> p else None.
Proof.
  destruct p; simpl; by destruct (String.eqb name k).
Qed.

(** [Marshal] fails only through the context data. *)
Lemma Marshal_Some h ee doc :
  Json.Marshal h ee = Some doc →
  ∃ context,
    match entContext ee with
    | Some c => ∃ j, Json.ofContext h c = Some j ∧ context = [("context"%string, j)]
    | None => context = []
    end
    ∧ doc = JObject (Json.str "logName" (LogName ee)
                 ++ Json.str "timestamp" (Timestamp ee)
                 ++ Json.ptr "httpRequest" Json.ofHTTPRequest (entHTTPRequest ee)
                 ++ Json.str "trace" (Trace ee)
                 ++ Json.str "spanId" (SpanID ee)
                 ++ Json.ptr "serviceContext" Json.ofServiceContext
                      (entServiceContext ee)
                 ++ Json.str "message" (Message ee)
                 ++ Json.str "severity" (Severity ee)
                 ++ context
                 ++ Json.ptr "sourceLocation" Json.ofReportLocation
                      (SourceLocation ee)).
Proof.
  unfold Json.Marshal. destruct (entContext ee) as [c|]; simpl.
  - destruct (Json.ofContext h c) as [j|]; simpl; [|done].
    intros [= <-]. eexists. split; [by exists j | done].
  - intros [= <-]. by eexists.
Qed.

Lemma ofContext_Some h c j :
  Json.ofContext h c = Some j →
  ∃ data,
    j = JObject (data
                 ++ Json.ptr "reportLocation" Json.ofReportLocation
                      (ctxReportLocation c)
                 ++ Json.ptr "httpRequest" Json.ofHTTPRequest (ctxHTTPRequest c))
    ∧ (data = []
       ∨ ∃ d, Json.ofFields (Map.contents h (Data c)) = Some d
              ∧ data = [("data"%string, d)]).
Proof.
  unfold Json.ofContext.
  destruct (decide (Map.contents h (Data c) = ∅)); simpl.
  - intros [= <-]. exists []. auto.
  - destruct (Json.ofFields (Map.contents h (Data c))) as [d|]; simpl; [|done].
    intros [= <-]. exists [("data"%string, d)]. split; [done|].
    right. by exists d.
Qed.

End json_lemmas.

(** Normalise [member k doc] for a document built by [Marshal]. *)
Ltac members :=
  unfold member;
  rewrite ?assoc_app, ?assoc_str, ?assoc_ptr, ?assoc_int;
  cbn [String.eqb Ascii.eqb Bool.eqb andb assoc fmap option_fmap option_map].

(** Claim C5.  For a record whose severity is below ERROR (debug,
    info, warning or an unmapped level) the entry has no source location
    and no report location, and the document written has neither a
    sourceLocation member nor a reportLocation member in its context. *)
Theorem no_location_below_error f w e h :
  valid_ref h (eData e) →
  let ee := fst (ToEntry f w e h) in
  ¬ error_or_worse (Severity ee) →
  SourceLocation ee = None
  ∧ entContext ee ≫= ctxReportLocation = None
  ∧ ∀ doc nl, fst (Format f w e h) = Some (doc, nl) →
      member "sourceLocation" doc = None
      ∧ ∀ c, member "context" doc = Some c → member "reportLocation" c = None.
Proof.
  intros Hv. cbv zeta. rewrite Format_run. rewrite ToEntry_run by done.
  cbn [fst snd]. unfold entry_of at 1, entry_of at 1, entry_of at 1.
  cbn [Severity SourceLocation entContext mbind option_bind ctxReportLocation].
  intros Hsev. apply is_error_severity_false in Hsev.
  unfold location_of at 1 2. rewrite Hsev. split_and!; [done..|].
  intros doc nl Hdoc.
  destruct (Json.Marshal _ _) as [b|] eqn:Hm; [|done].
  injection Hdoc as <- <-.
  apply Marshal_Some in Hm as (context & Hctx & ->).
  unfold entry_of in Hctx |- *.
  cbn [entContext SourceLocation LogName Timestamp entHTTPRequest Trace SpanID
       entServiceContext Message Severity] in Hctx |- *.
  destruct Hctx as (j & Hj & ->).
  apply ofContext_Some in Hj as (data & -> & Hdata).
  cbn [ctxReportLocation ctxHTTPRequest] in *.
  unfold location_of. rewrite Hsev.
  split.
  - members. by repeat case_match.
  - intros c. members. intros Hc.
    assert (c = JObject (data ++ Json.ptr "reportLocation" Json.ofReportLocation None
      ++ Json.ptr "httpRequest" Json.ofHTTPRequest
           (default None (Map.contents h (eData e) !! KeyHTTPRequest
                          ≫= assert_HTTPRequest)))) as ->
      by (repeat case_match; congruence).
    members. destruct Hdata as [->|(d & _ & ->)]; members; by repeat case_match.
Qed.





(** ** Encoding the context data *)

Lemma ofFields_is_Some (m : Fields) :
  (∀ k v, m !! k = Some v → is_Some (Json.ofValue v)) →
  is_Some (Json.ofFields m).
Proof.
  intros Hall. unfold Json.ofFields.
  destruct (mapM _ (Json.sorted_entries m)) as [ms|] eqn:Hm; [by eexists|].
  apply mapM_None in Hm. apply Exists_exists in Hm as ([k v] & Hin & Hnone).
  unfold Json.sorted_entries in Hin. rewrite merge_sort_Permutation in Hin.
  apply elem_of_map_to_list in Hin. destruct (Hall k v Hin) as [j Hj].
  simpl in Hnone. by rewrite Hj in Hnone.
Qed.

Lemma ofFields_None (m : Fields) :
  Json.ofFields m = None → ∃ k v, m !! k = Some v ∧ Json.ofValue v = None.
Proof.
  unfold Json.ofFields.
  destruct (mapM _ (Json.sorted_entries m)) as [ms|] eqn:Hm; [done|].
  intros _. apply mapM_None in Hm.
  apply Exists_exists in Hm as ([k v] & Hin & Hnone).
  unfold Json.sorted_entries in Hin. rewrite merge_sort_Permutation in Hin.
  apply elem_of_map_to_list in Hin. exists k, v. split; [done|].
  simpl in Hnone. by destruct (Json.ofValue v).
Qed.

Lemma context_data_empty f e : context_data f e ∅ = ∅.
Proof.
  unfold context_data, drop_if. rewrite fmap_empty.
  repeat case_match; by rewrite ?delete_empty.
Qed.

Lemma entContext_entry_of f w e src d :
  entContext (entry_of f w e src d)
  = Some (mkContext (Some d) (location_of f w e)
            (default None (src !! KeyHTTPRequest ≫= assert_HTTPRequest))).
Proof. reflexivity. Qed.

Lemma Format_doc f w e h :
  valid_ref h (eData e) →
  let src := Map.contents h (eData e) in
  let ee := entry_of f w e src (fresh (dom h)) in
  fst (Format f w e h)
  = match data_members (context_data f e src) with
    | Some data =>
        Some (document ee data
                (mkContext (Some (fresh (dom h))) (location_of f w e)
                   (default None (src !! KeyHTTPRequest ≫= assert_HTTPRequest))),
              String "010"%char EmptyString)
    | None => None
    end.
Proof.
  intros Hv. cbv zeta. rewrite Format_run, ToEntry_run by done.
  cbn [fst snd]. unfold Json.Marshal, document, data_members.
  rewrite entContext_entry_of.
  unfold Json.ofContext. cbn [Data ctxReportLocation ctxHTTPRequest].
  rewrite contents_fresh.
  destruct (decide (context_data f e (Map.contents h (eData e)) = ∅)).
  - reflexivity.
  - cbn [mbind option_bind].
    by destruct (Json.ofFields (context_data f e (Map.contents h (eData e)))).
Qed.

Lemma data_members_None m :
  data_members m = None → ∃ k v, m !! k = Some v ∧ Json.ofValue v = None.
Proof.
  unfold data_members. case_decide; [done|].
  destruct (Json.ofFields m) eqn:Hf; [done|]. intros _. by apply ofFields_None.
Qed.

Lemma data_members_is_Some m :
  (∀ k v, m !! k = Some v → is_Some (Json.ofValue v)) →
  is_Some (data_members m).
Proof.
  intros Hall. unfold data_members. case_decide; [by eexists|].
  destruct (ofFields_is_Some m Hall) as [d ->]. by eexists.
Qed.

(** Claim C8.  Whenever [Format] writes a document, it has a context
    member that is an object, the empty object for a record without
    fields below ERROR; the members trace, spanId, httpRequest, logName
    and sourceLocation are left out when the field of the entry is
    unset.  When [Format] writes nothing, a value of the context data
    cannot be encoded. *)
Theorem context_always_present f w e h :
  valid_ref h (eData e) →
  let ee := fst (ToEntry f w e h) in
  match fst (Format f w e h) with
  | Some (doc, nl) =>
      (∃ ms, member "context" doc = Some (JObject ms))
      ∧ (Map.contents h (eData e) = ∅ → ¬ error_or_worse (Severity ee) →
         member "context" doc = Some (JObject []))
      ∧ (Trace ee = "" → member "trace" doc = None)
      ∧ (SpanID ee = "" → member "spanId" doc = None)
      ∧ (entHTTPRequest ee = None → member "httpRequest" doc = None)
      ∧ (LogName ee = "" → member "logName" doc = None)
      ∧ (SourceLocation ee = None → member "sourceLocation" doc = None)
  | None =>
      ∃ k v, emitted_data f w e h !! k = Some v ∧ Json.ofValue v = None
  end.
Proof.
  intros Hv. cbv zeta. rewrite Format_doc, emitted_data_run by done.
  rewrite ToEntry_run by done. cbn [fst].
  destruct (data_members _) as [data|] eqn:Hdata.
  - unfold document. set (ee := entry_of f w e _ _).
    cbn [ctxReportLocation ctxHTTPRequest].
    split_and!.
    + members. repeat case_match; by eexists.
    + intros Hempty Hsev. apply is_error_severity_false in Hsev.
      rewrite Hempty, context_data_empty in Hdata.
      unfold data_members in Hdata. rewrite decide_True in Hdata by done.
      injection Hdata as <-.
      members. rewrite Hempty, lookup_empty. unfold location_of.
      change (Severity ee) with (severity_of e) in Hsev. rewrite Hsev. simpl.
      by repeat case_match.
    + intros Ht. members. rewrite Ht. by repeat case_match.
    + intros Ht. members. rewrite Ht. by repeat case_match.
    + intros Ht. members. rewrite Ht. by repeat case_match.
    + intros Ht. members. by rewrite Ht.
    + intros Ht. members. rewrite Ht. by repeat case_match.
  - by apply data_members_None.
Qed.

Lemma context_always_present_witness :
  fst (Format (NewFormatter []) testWorld (entry0 logrus.InfoLevel "msg")
         (store1 ∅))
  = Some (JObject [("serviceContext"%string, JObject []);
                   ("message"%string, JString "msg");
                   ("severity"%string, JString "INFO");
                   ("context"%string, JObject [])],
          String "010"%char EmptyString)
  ∧ member "context"
      (JObject [("serviceContext"%string, JObject []);
                ("message"%string, JString "msg");
                ("severity"%string, JString "INFO");
                ("context"%string, JObject [])])
    = Some (JObject []).
Proof.
  assert (valid_ref (store1 ∅) (eData (entry0 logrus.InfoLevel "msg"))) as Hv
    by (by eexists).
  pose proof (context_always_present (NewFormatter []) testWorld
                (entry0 logrus.InfoLevel "msg") (store1 ∅) Hv) as H.
  cbv zeta in H.
  assert (fst (Format (NewFormatter []) testWorld (entry0 logrus.InfoLevel "msg")
                 (store1 ∅))
          = Some (JObject [("serviceContext"%string, JObject []);
                           ("message"%string, JString "msg");
                           ("severity"%string, JString "INFO");
                           ("context"%string, JObject [])],
                  String "010"%char EmptyString)) as Hf by (vm_compute; reflexivity).
  rewrite Hf in H. split; [done|].
  destruct H as (_ & Hctx & _). apply Hctx.
  - vm_compute. reflexivity.
  - vm_compute. intros [H|[H|H]]; discriminate.
Defined.

(** Claim C9 as stated fails: with an empty service and an empty
    version the document still has a serviceContext member. *)
Lemma empty_service_context_is_written :
  ¬ (∀ f w e h doc nl,
       valid_ref h (eData e) →
       fService f = "" → fVersion f = "" →
       fst (Format f w e h) = Some (doc, nl) →
       member "serviceContext" doc = None).
Proof.
  intros Hall.
  assert (member "serviceContext"
            (JObject [("serviceContext"%string, JObject []);
                      ("message"%string, JString "msg");
                      ("severity"%string, JString "INFO");
                      ("context"%string, JObject [])]) = None) as H.
  { apply (Hall (NewFormatter []) testWorld (entry0 logrus.InfoLevel "msg")
             (store1 ∅) _ (String "010"%char EmptyString)).
    - by eexists.
    - reflexivity.
    - reflexivity.
    - vm_compute. reflexivity. }
  vm_compute in H. discriminate.
Qed.

(** Claim C9, amended.  [ToEntry] always sets the service context from
    the configuration, and every document written has a serviceContext
    member holding the non-empty ones of service and version; with both
    empty it is the empty object. *)
Theorem service_context_always_written f w e h :
  valid_ref h (eData e) →
  entServiceContext (fst (ToEntry f w e h))
  = Some (mkServiceContext (fService f) (fVersion f))
  ∧ ∀ doc nl, fst (Format f w e h) = Some (doc, nl) →
      member "serviceContext" doc
      = Some (JObject (Json.str "service" (fService f)
                       ++ Json.str "version" (fVersion f)))
      ∧ (fService f = "" → fVersion f = "" →
         member "serviceContext" doc = Some (JObject [])).
Proof.
  intros Hv. rewrite Format_doc, ToEntry_run by done. cbn [fst].
  split; [done|]. intros doc nl.
  destruct (data_members _) as [data|]; [|done].
  intros [= <- <-]. unfold document. set (ee := entry_of f w e _ _).
  cbn [ctxReportLocation ctxHTTPRequest].
  assert (entServiceContext ee
          = Some (mkServiceContext (fService f) (fVersion f))) as -> by done.
  split.
  - members. by repeat case_match.
  - intros Hs Hver. members. rewrite Hs, Hver. by repeat case_match.
Qed.

Lemma service_context_always_written_witness :
  entServiceContext (fst (ToEntry testFormatter testWorld
                            (entry0 logrus.InfoLevel "msg") (store1 ∅)))
  = Some (mkServiceContext "test" "0.1").
Proof.
  apply (service_context_always_written testFormatter testWorld
           (entry0 logrus.InfoLevel "msg") (store1 ∅)).
  by eexists.
Defined.

(** ** The theorems on concrete runs *)

Lemma error_folded_or_kept_witness :
  Message (fst (ToEntry testFormatter testWorld
                  (entry0 logrus.ErrorLevel "my log entry") (store1 fields_err)))
  = "my log entry: test error"
  ∧ emitted_data testFormatter testWorld
      (entry0 logrus.ErrorLevel "my log entry") (store1 fields_err)
    !! logrus.ErrorKey = None.
Proof.
  destruct (error_folded_or_kept testFormatter testWorld
              (entry0 logrus.ErrorLevel "my log entry") (store1 fields_err)
              "test error" None) as [Herr _].
  - by eexists.
  - vm_compute. reflexivity.
  - apply Herr. left. vm_compute. reflexivity.
Defined.

Lemma recognized_keys_extracted_witness :
  emitted_data testFormatter testWorld (entry0 logrus.InfoLevel "my log entry")
    (store1 fields_trace) !! KeyTrace = None
  ∧ Trace (fst (ToEntry testFormatter testWorld
                  (entry0 logrus.InfoLevel "my log entry") (store1 fields_trace)))
    = "my-trace".
Proof.
  destruct (recognized_keys_extracted testFormatter testWorld
              (entry0 logrus.InfoLevel "my log entry") (store1 fields_trace))
    as [Htrace _].
  - by eexists.
  - apply Htrace. vm_compute. reflexivity.
Defined.

Lemma no_location_below_error_witness :
  SourceLocation (fst (ToEntry testFormatter testWorld
                         (entry0 logrus.WarnLevel "careful") (store1 fields_err)))
  = None.
Proof.
  apply (no_location_below_error testFormatter testWorld
           (entry0 logrus.WarnLevel "careful") (store1 fields_err)).
  - by eexists.
  - vm_compute. intros [H|[H|H]]; discriminate.
Defined.

Lemma log_name_from_logID_witness :
  LogName (fst (ToEntry (NewFormatter [WithProjectID "p"]) testWorld
                  (entry0 logrus.InfoLevel "msg")
                  (store1 {[ KeyLogID := VString "a b/c" ]})))
  = "projects/p/logs/a+b%2Fc".
Proof.
  destruct (log_name_from_logID (NewFormatter [WithProjectID "p"]) testWorld
              (entry0 logrus.InfoLevel "msg")
              (store1 {[ KeyLogID := VString "a b/c" ]}) "a b/c") as [Hset _].
  - by eexists.
  - vm_compute. reflexivity.
  - apply Hset. vm_compute. discriminate.
Defined.

Lemma caller_fields_unchanged_witness :
  Map.contents (snd (ToEntry testFormatter testWorld
                       (entry0 logrus.ErrorLevel "my log entry")
                       (store1 fields_err)))
    (Some 0%nat)
  = fields_err.
Proof.
  destruct (caller_fields_unchanged testFormatter testWorld
              (entry0 logrus.ErrorLevel "my log entry") (store1 fields_err))
    as (_ & Hsame & _).
  - by eexists.
  - exact Hsame.
Defined.


(** * Further properties of the code *)

(** ** [errorOrigin] *)

Lemma walk_found f frames fr :
  fst (walk f frames) = Some fr
  ↔ ∃ pre post, frames = pre ++ fr :: post
                ∧ Forall (λ x, skipped f x = true) pre
                ∧ skipped f fr = false.
Proof.
  unfold skipped. induction frames as [|x frames IH].
  - split; [done|]. intros (pre & post & Heq & _). by destruct pre.
  - rewrite walk_cons.
    destruct (skip f (devendor (frPackage x))) eqn:Hx.
    + rewrite IH. split.
      * intros (pre & post & -> & Hpre & Hfr).
        exists (x :: pre), post. split_and!; [done| |done]. by constructor.
      * intros (pre & post & Heq & Hpre & Hfr).
        destruct pre as [|y pre]; simpl in Heq.
        -- injection Heq as -> _. congruence.
        -- injection Heq as -> ->. apply Forall_cons in Hpre as [_ Hpre].
           by exists pre, post.
    + simpl. split.
      * intros [= ->]. by exists [], frames.
      * intros (pre & post & Heq & Hpre & Hfr).
        destruct pre as [|y pre]; simpl in Heq.
        -- by injection Heq as -> _.
        -- injection Heq as -> _. apply Forall_cons in Hpre as [Hy _].
           congruence.
Qed.

Lemma walk_no_error f frames : snd (walk f frames) = None.
Proof.
  induction frames as [|x frames IH]; [done|].
  rewrite walk_cons. by destruct (skip f (devendor (frPackage x))).
Qed.

(** Property X1.  The origin is the first frame, from index 3 on, whose package (with
    vendoring removed) is not in the skip list. *)
Theorem errorOrigin_first_unskipped f w fr :
  fst (errorOrigin f w) = Some fr
  ↔ ∃ pre post, drop 3 (callers w) = pre ++ fr :: post
                ∧ Forall (λ x, skipped f x = true) pre
                ∧ skipped f fr = false.
Proof. apply walk_found. Qed.

(** Property X2.  [errorOrigin] never returns an error, so for ERROR, CRITICAL and
    ALERT both locations are always set, and to the same value. *)
Theorem error_entries_always_located f w e h :
  valid_ref h (eData e) →
  error_or_worse (severity_of e) →
  let ee := fst (ToEntry f w e h) in
  snd (errorOrigin f w) = None
  ∧ is_Some (SourceLocation ee)
  ∧ entContext ee ≫= ctxReportLocation = SourceLocation ee.
Proof.
  intros Hv Hsev. cbv zeta. rewrite ToEntry_run by done.
  apply is_error_severity_spec in Hsev.
  unfold entry_of, location_of. cbn [fst SourceLocation entContext mbind
    option_bind ctxReportLocation].
  unfold errorOrigin. rewrite walk_no_error, Hsev. split_and!; [done| |done].
  by eexists.
Qed.

Lemma error_entries_always_located_witness :
  is_Some (SourceLocation (fst (ToEntry testFormatter testWorld
                                  (entry0 logrus.PanicLevel "boom") (store1 ∅)))).
Proof.
  apply (error_entries_always_located testFormatter testWorld
           (entry0 logrus.PanicLevel "boom") (store1 ∅)).
  - by eexists.
  - right. right. reflexivity.
Defined.

(** ** The context data is the residue of the field map *)

Lemma emitted_from_source f w e h k v :
  valid_ref h (eData e) →
  emitted_data f w e h !! k = Some v →
  ∃ v0, Map.contents h (eData e) !! k = Some v0 ∧ v = replaceError v0.
Proof.
  intros Hv. rewrite emitted_data_run by done. unfold context_data.
  rewrite !lookup_drop_if, lookup_fmap.
  repeat case_match; try done.
  destruct (Map.contents h (eData e) !! k) as [v0|]; [|done].
  intros [= <-]. by exists v0.
Qed.

(** Property X8.  Keys other than the four recognized ones and the error key pass
    into the context data, errors replaced by their text; no key is
    ever added. *)
Theorem other_fields_pass_through f w e h :
  valid_ref h (eData e) →
  let src := Map.contents h (eData e) in
  (∀ k, k ∉ [KeyTrace; KeySpanID; KeyHTTPRequest; KeyLogID; logrus.ErrorKey] →
        emitted_data f w e h !! k = replaceError <$> src !! k)
  ∧ (∀ k v, emitted_data f w e h !! k = Some v →
            ∃ v0, src !! k = Some v0 ∧ v = replaceError v0).
Proof.
  intros Hv. cbv zeta. rewrite emitted_data_run by done.
  unfold context_data. split.
  - intros k Hk. rewrite !lookup_drop_if, lookup_fmap.
    rewrite !not_elem_of_cons in Hk.
    destruct Hk as (H1 & H2 & H3 & H4 & H5 & _).
    apply not_eq_sym, String.eqb_neq in H1, H2, H3, H4, H5.
    by rewrite H1, H2, H3, H4, H5, !andb_false_r.
  - intros k v. rewrite !lookup_drop_if, lookup_fmap.
    repeat case_match; try done.
    destruct (Map.contents h (eData e) !! k) as [v0|]; [|done].
    intros [= <-]. by exists v0.
Qed.

Lemma other_fields_pass_through_witness :
  emitted_data testFormatter testWorld (entry0 logrus.ErrorLevel "my log entry")
    (store1 fields_err) !! "foo"
  = Some (VString "bar").
Proof.
  destruct (other_fields_pass_through testFormatter testWorld
              (entry0 logrus.ErrorLevel "my log entry") (store1 fields_err))
    as [Hpass _].
  - by eexists.
  - rewrite Hpass; [reflexivity|].
    rewrite !not_elem_of_cons. split_and!; try discriminate. apply not_elem_of_nil.
Defined.

(** ** The nil field map *)

(** Property X9.  An entry whose [Data] is the nil map formats like one without
    fields: the context data is empty and nothing is extracted. *)
Theorem nil_field_map f w e h :
  eData e = None →
  let ee := fst (ToEntry f w e h) in
  emitted_data f w e h = ∅
  ∧ Trace ee = "" ∧ SpanID ee = "" ∧ LogName ee = ""
  ∧ entHTTPRequest ee = None
  ∧ Message ee = eMessage e.
Proof.
  intros Hnil. cbv zeta.
  assert (valid_ref h (eData e)) as Hv by (by rewrite Hnil).
  rewrite emitted_data_run, ToEntry_run by done. rewrite Hnil.
  cbn [Map.contents]. rewrite context_data_empty.
  unfold entry_of. cbn [fst Trace SpanID LogName entHTTPRequest Message].
  rewrite fmap_empty, !lookup_empty. cbn. split_and!; try done.
  by destruct (is_error_severity (severity_of e)).
Qed.

Lemma nil_field_map_witness :
  emitted_data testFormatter testWorld (mkLogrusEntry None logrus.ErrorLevel "x") ∅
  = ∅.
Proof.
  apply (nil_field_map testFormatter testWorld
           (mkLogrusEntry None logrus.ErrorLevel "x") ∅).
  reflexivity.
Defined.

(** ** Levels and severities *)

Lemma severity_unmapped (l : logrus.Level) :
  (logrus.DebugLevel < l)%N → levelsToSeverity !! l = None.
Proof.
  intros Hl. unfold levelsToSeverity. apply not_elem_of_list_to_map_1.
  cbn [fmap list_fmap fst]. unfold logrus.DebugLevel, logrus.InfoLevel,
    logrus.WarnLevel, logrus.ErrorLevel, logrus.FatalLevel, logrus.PanicLevel in *.
  rewrite !not_elem_of_cons. split_and!; try lia. apply not_elem_of_nil.
Qed.

(** Property X10.  The error branch is taken exactly for the levels Panic, Fatal and
    Error; a level above Debug (Trace, or any other number) has no
    severity at all. *)
Theorem severity_of_level e :
  (error_or_worse (severity_of e) ↔ (eLevel e <= logrus.ErrorLevel)%N)
  ∧ ((logrus.DebugLevel < eLevel e)%N → severity_of e = "").
Proof.
  unfold severity_of. split.
  - destruct (decide (logrus.DebugLevel < eLevel e)%N) as [Hbig|Hsmall].
    + rewrite severity_unmapped by done. unfold logrus.ErrorLevel,
        logrus.DebugLevel, error_or_worse in *. simpl.
      split; [intros [H|[H|H]]; discriminate | lia].
    + unfold logrus.DebugLevel, logrus.ErrorLevel in *.
      assert (eLevel e ∈ [0; 1; 2; 3; 4; 5]%N) as Hin.
      { rewrite !elem_of_cons. lia. }
      rewrite !elem_of_cons, elem_of_nil in Hin.
      unfold error_or_worse.
      destruct Hin as [->|[->|[->|[->|[->|[->|[]]]]]]];
        match goal with
        | |- context [default ?d ?o] =>
            let v := eval vm_compute in (default d o) in
            change (default d o) with v
        end;
        unfold severityError, severityCritical, severityAlert;
        (split;
         [ first [ intros _; lia | intros [H|[H|H]]; discriminate H ]
         | first [ intros _; by auto | lia ] ]).
  - intros Hbig. by rewrite severity_unmapped.
Qed.


(** ** When [Format] fails *)

Lemma ofFields_None_iff (m : Fields) :
  Json.ofFields m = None ↔ ∃ k v, m !! k = Some v ∧ Json.ofValue v = None.
Proof.
  split; [apply ofFields_None|].
  intros (k & v & Hk & Hv). unfold Json.ofFields.
  rewrite (mapM_None_2 _ (Json.sorted_entries m)); [done|].
  apply Exists_exists. exists (k, v). split.
  - unfold Json.sorted_entries. rewrite merge_sort_Permutation.
    by apply elem_of_map_to_list.
  - simpl. by rewrite Hv.
Qed.

Lemma Format_None_iff f w e h :
  valid_ref h (eData e) →
  fst (Format f w e h) = None
  ↔ ∃ k v, emitted_data f w e h !! k = Some v ∧ Json.ofValue v = None.
Proof.
  intros Hv. rewrite Format_doc, emitted_data_run by done.
  split.
  - destruct (data_members _) eqn:Hd; [done|]. intros _.
    by apply data_members_None.
  - intros (k & v & Hk & Hnone).
    assert (data_members (context_data f e (Map.contents h (eData e))) = None)
      as ->; [|done].
    unfold data_members. rewrite decide_False.
    + rewrite (proj2 (ofFields_None_iff _)); [done|]. by exists k, v.
    + intros Hempty. by rewrite Hempty, lookup_empty in Hk.
Qed.

(** Property X12.  [Format] returns an error exactly when a value left in the context
    data cannot be encoded. *)
Theorem Format_fails_iff f w e h :
  valid_ref h (eData e) →
  fst (Format f w e h) = None
  ↔ ∃ k v, emitted_data f w e h !! k = Some v ∧ Json.ofValue v = None.
Proof. apply Format_None_iff. Qed.

Lemma Format_fails_iff_witness :
  fst (Format testFormatter testWorld (entry0 logrus.InfoLevel "msg")
         (store1 {[ "ch"%string := VOther "0xc000012345" None ]}))
  = None.
Proof.
  apply (Format_fails_iff testFormatter testWorld
           (entry0 logrus.InfoLevel "msg")).
  - by eexists.
  - exists "ch"%string, (VOther "0xc000012345" None). split; reflexivity.
Defined.

(** Property X13.  An error value in the field map never makes [Format] fail. *)
Theorem errors_are_encodable f w e h :
  valid_ref h (eData e) →
  (∀ k v, Map.contents h (eData e) !! k = Some v →
          (∃ text enc, v = VError text enc) ∨ is_Some (Json.ofValue v)) →
  is_Some (fst (Format f w e h)).
Proof.
  intros Hv Hall.
  destruct (fst (Format f w e h)) eqn:Hf; [by eexists|].
  apply Format_None_iff in Hf as (k & v & Hk & Hnone); [|done].
  destruct (emitted_from_source f w e h k v Hv Hk) as (v0 & Hv0 & ->).
  destruct (Hall k v0 Hv0) as [(text & enc & ->)|[j Hj]].
  - discriminate.
  - destruct v0; simpl in *; congruence.
Qed.

Lemma errors_are_encodable_witness :
  is_Some (fst (Format testFormatter testWorld
                  (entry0 logrus.InfoLevel "msg") (store1 fields_err))).
Proof.
  apply errors_are_encodable.
  - by eexists.
  - intros k v Hk.
    change (Map.contents (store1 fields_err) (eData (entry0 logrus.InfoLevel "msg")))
      with fields_err in Hk.
    unfold fields_err in Hk.
    apply lookup_insert_Some in Hk as [[_ <-]|[_ Hk]].
    + right. by eexists.
    + apply lookup_singleton_Some in Hk as [_ <-]. left. by eexists _, _.
Defined.

(** ** The members of the document and their order *)

Lemma keys_str name s : (Json.str name s).*1 `sublist_of` [name].
Proof.
  unfold Json.str. destruct (String.eqb s ""); simpl.
  - apply sublist_nil_l.
  - done.
Qed.

Lemma keys_ptr {A} name (enc : A → json) p :
  (Json.ptr name enc p).*1 `sublist_of` [name].
Proof. destruct p; simpl; [done | apply sublist_nil_l]. Qed.

(** Property X14.  The document has no member besides the ten of [Entry], in the order
    of the struct, and its context none besides data, reportLocation and
    httpRequest. *)
Theorem document_members f w e h doc nl :
  valid_ref h (eData e) →
  fst (Format f w e h) = Some (doc, nl) →
  keys doc `sublist_of` entryMembers
  ∧ (∀ c, member "context" doc = Some c → keys c `sublist_of` contextMembers)
  ∧ nl = String "010"%char EmptyString.
Proof.
  intros Hv. rewrite Format_doc by done.
  destruct (data_members _) as [data|] eqn:Hd; [|done].
  intros [= <- <-]. unfold document. cbn [keys ctxReportLocation ctxHTTPRequest].
  assert (data.*1 `sublist_of` ["data"%string]) as Hdata.
  { unfold data_members in Hd. case_decide.
    - injection Hd as <-. apply sublist_nil_l.
    - destruct (Json.ofFields _); [|done]. by injection Hd as <-. }
  split_and!; [| |done].
  - rewrite !fmap_app. unfold entryMembers.
    repeat (apply (sublist_app _ [_]); [first [apply keys_str | apply keys_ptr | done]|]).
    apply keys_ptr.
  - intros c. members. intros [= <-].
    cbn [keys]. rewrite !fmap_app. unfold contextMembers.
    apply (sublist_app _ [_]); [done|].
    apply (sublist_app _ [_]); apply keys_ptr.
Qed.

Lemma document_members_witness :
  keys (JObject [("serviceContext"%string, JObject []);
                 ("message"%string, JString "msg");
                 ("severity"%string, JString "INFO");
                 ("context"%string, JObject [])])
  `sublist_of` entryMembers.
Proof.
  apply (document_members (NewFormatter []) testWorld
           (entry0 logrus.InfoLevel "msg") (store1 ∅) _
           (String "010"%char EmptyString)).
  - by eexists.
  - vm_compute. reflexivity.
Defined.


(** ** Line numbers: printing and parsing back *)

Lemma string_of_uint_head d :
  d ≠ Nil →
  ∃ c s, NilEmpty.string_of_uint d = String c s
         ∧ Ascii.eqb c "+" = false ∧ Ascii.eqb c "-" = false.
Proof. destruct d; try done; intros _; by eexists _, _. Qed.

Lemma digits_to_uint p :
  Strconv.digits (NilZero.string_of_uint (Pos.to_uint p)) = Some (Z.pos p).
Proof.
  unfold Strconv.digits.
  rewrite NilZero.usu by apply Unsigned.to_uint_nonnil.
  unfold Z.of_uint. by rewrite Unsigned.of_to.
Qed.

Lemma string_of_uint_to_uint p :
  NilZero.string_of_uint (Pos.to_uint p)
  = NilEmpty.string_of_uint (Pos.to_uint p).
Proof.
  pose proof (Unsigned.to_uint_nonnil p) as Hnn.
  by destruct (Pos.to_uint p).
Qed.

(** A line number in the range of int64 survives [%d] followed by
    [strconv.ParseInt]. *)
Lemma ParseInt_FormatInt n :
  Strconv.minInt64 <= n <= Strconv.maxInt64 →
  Strconv.ParseInt (Strconv.FormatInt n) = (n, false).
Proof.
  unfold Strconv.minInt64, Strconv.maxInt64, Strconv.FormatInt. intros Hn.
  destruct n as [|p|p]; [done| |].
  - cbn [Z.to_int NilZero.string_of_int].
    pose proof (digits_to_uint p) as Hd.
    rewrite string_of_uint_to_uint in *.
    destruct (string_of_uint_head (Pos.to_uint p)) as (c & s & Hs & Hplus & Hminus);
      [apply Unsigned.to_uint_nonnil|].
    rewrite Hs in *. unfold Strconv.ParseInt.
    rewrite Hplus, Hminus. cbn [orb]. rewrite Hd.
    destruct (Z.leb_spec (2 ^ 63) (Z.pos p)); [lia | done].
  - cbn [Z.to_int NilZero.string_of_int]. unfold Strconv.ParseInt.
    cbn [Ascii.eqb Bool.eqb orb]. rewrite digits_to_uint.
    destruct (Z.ltb_spec (2 ^ 63) (Z.pos p)); [lia | done].
Qed.

(** Property X3.  For ERROR, CRITICAL and ALERT, when a frame from index 3 on is not
    skipped, both locations carry the file, line and function of the
    first such frame. *)
Theorem location_of_origin f w e h fr :
  valid_ref h (eData e) →
  error_or_worse (severity_of e) →
  fst (errorOrigin f w) = Some fr →
  Strconv.minInt64 <= frLine fr <= Strconv.maxInt64 →
  SourceLocation (fst (ToEntry f w e h))
  = Some (mkReportLocation (frFile fr) (frLine fr) (frFunction fr)).
Proof.
  intros Hv Hsev Hfr Hline. rewrite ToEntry_run by done.
  apply is_error_severity_spec in Hsev.
  unfold entry_of, location_of. cbn [fst SourceLocation].
  unfold errorOrigin in *. rewrite Hsev, walk_no_error, Hfr.
  cbn [stack.Sprintf_d stack.Sprintf_plus_s stack.Sprintf_n].
  by rewrite ParseInt_FormatInt.
Qed.

Lemma location_of_origin_witness :
  SourceLocation (fst (ToEntry testFormatter testWorld
                         (entry0 logrus.ErrorLevel "my log entry") (store1 ∅)))
  = Some (mkReportLocation
            "github.com/shortcut/logrus-stackdriver-formatter/formatter_test.go"
            64 "glob..func2").
Proof.
  apply (location_of_origin testFormatter testWorld
           (entry0 logrus.ErrorLevel "my log entry") (store1 ∅)
           (mkFrame "github.com/shortcut/logrus-stackdriver-formatter"
              "github.com/shortcut/logrus-stackdriver-formatter/formatter_test.go"
              64 "glob..func2")).
  - by eexists.
  - left. reflexivity.
  - vm_compute. reflexivity.
  - vm_compute. split; discriminate.
Defined.

(** ** [replaceErrors] makes a copy *)

(** Property X7.  The result is a new map at an unused location, with the keys of the
    source and its values, errors replaced by their text; no error value
    remains in it and every other map of the store is as before. *)
Theorem replaceErrors_copies h r :
  ∃ l, fst (replaceErrors r h) = Some l
       ∧ h !! l = None
       ∧ Map.contents (snd (replaceErrors r h)) (Some l)
         = replaceError <$> Map.contents h r
       ∧ dom (Map.contents (snd (replaceErrors r h)) (Some l))
         = dom (Map.contents h r)
       ∧ (∀ k text enc,
            Map.contents (snd (replaceErrors r h)) (Some l) !! k
            ≠ Some (VError text enc))
       ∧ (∀ l', l' ≠ l → snd (replaceErrors r h) !! l' = h !! l').
Proof.
  exists (fresh (dom h)). rewrite replaceErrors_run. cbn [fst snd].
  rewrite contents_fresh. split_and!.
  - done.
  - apply fresh_not_allocated.
  - done.
  - apply dom_fmap_L.
  - intros k text enc. rewrite lookup_fmap.
    destruct (Map.contents h r !! k) as [[]|]; simpl; congruence.
  - intros l' Hl'. by rewrite lookup_insert_ne.
Qed.

(** ** [NewFormatter] and the skip list *)

Lemma skip_spec f pkg : skip f pkg = true ↔ pkg ∈ StackSkip f.
Proof.
  unfold skip. rewrite existsb_exists. split.
  - intros (s & Hin & Heq). apply String.eqb_eq in Heq as ->.
    by apply list_elem_of_In.
  - intros Hin. exists pkg. split; [by apply list_elem_of_In|].
    apply String.eqb_refl.
Qed.





(** ** [url.QueryEscape] *)

Lemma shouldEscape_upperhex n : URL.shouldEscape (URL.upperhex n) = false.
Proof. do 17 (destruct n as [|n]; [reflexivity|]). reflexivity. Qed.

(** The escaped text holds only unreserved bytes, [+] and [%]. *)
Lemma QueryEscape_safe s c :
  c ∈ list_ascii_of_string (URL.QueryEscape s) →
  URL.shouldEscape c = false ∨ c = "+"%char ∨ c = "%"%char.
Proof.
  induction s as [|a s IH]; simpl.
  - intros Hc. by apply elem_of_nil in Hc.
  - destruct (URL.shouldEscape a) eqn:Ha.
    + destruct (Ascii.eqb a " "); simpl; rewrite !elem_of_cons.
      * intros [->|Hc]; auto.
      * intros [->|[->|[->|Hc]]]; auto using shouldEscape_upperhex.
    + simpl. rewrite elem_of_cons. intros [->|Hc]; auto.
Qed.

(** A text of unreserved bytes is its own escape. *)
Lemma QueryEscape_unreserved s :
  Forall (λ c, URL.shouldEscape c = false) (list_ascii_of_string s) →
  URL.QueryEscape s = s.
Proof.
  induction s as [|a s IH]; simpl; [done|].
  intros Hall. apply Forall_cons in Hall as [Ha Hs]. rewrite Ha.
  by rewrite IH.
Qed.

Lemma decode_unit_QueryEscape c s :
  decode_unit (URL.QueryEscape (String c s)) = Some (c, URL.QueryEscape s).
Proof.
  destruct c as [[|] [|] [|] [|] [|] [|] [|] [|]]; reflexivity.
Qed.

Lemma QueryEscape_inj s1 s2 :
  URL.QueryEscape s1 = URL.QueryEscape s2 → s1 = s2.
Proof.
  revert s2. induction s1 as [|c1 s1 IH]; intros [|c2 s2] Heq.
  - done.
  - apply (f_equal decode_unit) in Heq.
    rewrite decode_unit_QueryEscape in Heq. discriminate.
  - apply (f_equal decode_unit) in Heq.
    rewrite decode_unit_QueryEscape in Heq. discriminate.
  - apply (f_equal decode_unit) in Heq.
    rewrite !decode_unit_QueryEscape in Heq. injection Heq as -> Heq.
    f_equal. by apply IH.
Qed.

Lemma append_inv_head (x a b : string) : x +:+ a = x +:+ b → a = b.
Proof.
  induction x as [|c x IH]; [done|]. rewrite !append_cons. intros [= H].
  by apply IH.
Qed.

(** Property X16.  Two records that get the same log name under one configuration
    carry the same log id. *)
Theorem log_name_determines_log_id f w e1 e2 h1 h2 s1 s2 :
  valid_ref h1 (eData e1) → valid_ref h2 (eData e2) →
  ProjectID f ≠ "" →
  Map.contents h1 (eData e1) !! KeyLogID = Some (VString s1) →
  Map.contents h2 (eData e2) !! KeyLogID = Some (VString s2) →
  LogName (fst (ToEntry f w e1 h1)) = LogName (fst (ToEntry f w e2 h2)) →
  s1 = s2.
Proof.
  intros Hv1 Hv2 Hp H1 H2. rewrite !ToEntry_run by done.
  unfold entry_of. cbn [fst LogName]. rewrite H1, H2.
  apply String.eqb_neq in Hp. rewrite Hp. cbn [negb mbind option_bind assert_string].
  intros Heq. do 3 apply append_inv_head in Heq. by apply QueryEscape_inj.
Qed.

Lemma log_name_determines_log_id_witness : "a b"%string = "a b"%string.
Proof.
  apply (log_name_determines_log_id (NewFormatter [WithProjectID "p"]) testWorld
           (entry0 logrus.InfoLevel "one") (entry0 logrus.ErrorLevel "two")
           (store1 {[ KeyLogID := VString "a b" ]})
           (store1 {[ KeyLogID := VString "a b"; "foo"%string := VString "bar" ]})).
  - by eexists.
  - by eexists.
  - discriminate.
  - vm_compute. reflexivity.
  - vm_compute. reflexivity.
  - vm_compute. reflexivity.
Defined.

(** Property X17.  A log id of unreserved bytes (letters, digits, [-], [_], [.], [~])
    appears in the log name as it is. *)
Theorem log_name_of_plain_id f w e h str :
  valid_ref h (eData e) →
  ProjectID f ≠ "" →
  Map.contents h (eData e) !! KeyLogID = Some (VString str) →
  Forall (λ c, URL.shouldEscape c = false) (list_ascii_of_string str) →
  LogName (fst (ToEntry f w e h))
  = "projects/" +:+ ProjectID f +:+ "/logs/" +:+ str.
Proof.
  intros Hv Hp Hid Hplain. rewrite ToEntry_run by done.
  unfold entry_of. cbn [fst LogName]. rewrite Hid.
  apply String.eqb_neq in Hp. rewrite Hp.
  cbn [negb mbind option_bind assert_string].
  by rewrite QueryEscape_unreserved.
Qed.

Lemma log_name_of_plain_id_witness :
  LogName (fst (ToEntry (NewFormatter [WithProjectID "my-project"]) testWorld
                  (entry0 logrus.InfoLevel "msg")
                  (store1 {[ KeyLogID := VString "my_log.v1~a-b" ]})))
  = "projects/my-project/logs/my_log.v1~a-b".
Proof.
  apply (log_name_of_plain_id (NewFormatter [WithProjectID "my-project"])
           testWorld (entry0 logrus.InfoLevel "msg")
           (store1 {[ KeyLogID := VString "my_log.v1~a-b" ]}) "my_log.v1~a-b").
  - by eexists.
  - discriminate.
  - vm_compute. reflexivity.
  - repeat constructor.
Defined.

(** ** Vendoring *)

(** Property X5.  The normalized package path is always a suffix of the path, and the
    path itself when it has no vendor marker. *)
Theorem devendor_suffix pkg :
  (∃ before, pkg = before +:+ devendor pkg)
  ∧ (¬ Strings.occurs vendorMarker pkg → devendor pkg = pkg).
Proof.
  split; [|apply devendor_none].
  rewrite devendor_cut.
  destruct (Strings.Cut pkg vendorMarker) as [[b a]|] eqn:Hc.
  - apply Cut_Some in Hc. exists (b +:+ vendorMarker).
    by rewrite append_assoc.
  - by exists "".
Qed.

(** Property X4.  The skip list is compared for equality: a frame is passed over
    exactly when its normalized package is an element of the list. *)
Theorem skip_exact_match f fr outer :
  (skip f (devendor (frPackage fr)) = true
   ↔ devendor (frPackage fr) ∈ StackSkip f)
  ∧ (devendor (frPackage fr) ∉ StackSkip f →
     walk f (fr :: outer) = (Some fr, None)).
Proof.
  split; [apply skip_spec|].
  intros Hnot. rewrite walk_cons.
  destruct (skip f (devendor (frPackage fr))) eqn:Hs; [|done].
  by apply skip_spec in Hs.
Qed.


(** ** The data member of the context *)

Global Instance key_le_total : Total Json.key_le.
Proof. intros a b. apply String.leb_total. Qed.







(** ** Timestamp and severity in the document *)

(** Property X11.  With [skipTimestamp] set the entry has no timestamp and the document
    no timestamp member; otherwise the timestamp is the clock reading.
    A level without a severity gives a document without a severity
    member. *)
Theorem timestamp_and_severity f w e h :
  valid_ref h (eData e) →
  let ee := fst (ToEntry f w e h) in
  Timestamp ee = (if skipTimestamp w then "" else now w)
  ∧ Severity ee = severity_of e
  ∧ ∀ doc nl, fst (Format f w e h) = Some (doc, nl) →
      (skipTimestamp w = true → member "timestamp" doc = None)
      ∧ ((logrus.DebugLevel < eLevel e)%N → member "severity" doc = None)
      ∧ (severity_of e ≠ "" → member "severity" doc = Some (JString (severity_of e))).
Proof.
  intros Hv. cbv zeta. rewrite Format_doc, ToEntry_run by done.
  cbn [fst]. split_and!.
  - unfold entry_of. cbn [Timestamp]. by destruct (skipTimestamp w).
  - done.
  - intros doc nl. destruct (data_members _) as [data|]; [|done].
    intros [= <- <-]. unfold document. set (ee := entry_of f w e _ _).
    assert (Timestamp ee = if skipTimestamp w then "" else now w) as Ht
      by (unfold ee, entry_of; cbn [Timestamp]; by destruct (skipTimestamp w)).
    assert (Severity ee = severity_of e) as Hs by done.
    split_and!.
    + intros Hskip. members. rewrite Ht, Hskip. by repeat case_match.
    + intros Hl. members. rewrite Hs.
      unfold severity_of. rewrite severity_unmapped by done.
      by repeat case_match.
    + intros Hne. members. rewrite Hs. apply String.eqb_neq in Hne.
      rewrite Hne. by repeat case_match.
Qed.

Lemma timestamp_and_severity_witness :
  Timestamp (fst (ToEntry testFormatter
                    (mkWorld false "2020-10-12T12:26:00Z" testStack)
                    (entry0 logrus.InfoLevel "msg") (store1 ∅)))
  = "2020-10-12T12:26:00Z".
Proof.
  apply (timestamp_and_severity testFormatter
           (mkWorld false "2020-10-12T12:26:00Z" testStack)
           (entry0 logrus.InfoLevel "msg") (store1 ∅)).
  by eexists.
Defined.
